(** * Rackspace cloud wrapper (cloud_browser/cloud/rackspace.py)

    A shallow embedding of the Rackspace adapter of django-cloud-browser:
    the listing operation [get_objects] with its marker handling, the
    [_collapse] pass over dummy / implied directory entries, the two object
    constructors with their timestamp parsing, and the exception translator.

    Python values are embedded as follows.
    - [str] is [string]; [None]-able arguments are [option].
    - [int] is [Z] (unbounded, as in Python).
    - a listing "info" dict is a record with one optional field per key the
      code reads; [None] means that the key is absent from the dict.
    - a raised exception is the left injection of a sum; code that calls
      the vendor runs in a small monad that also logs each vendor call. *)

From Stdlib Require Import ZArith List String Ascii Bool Lia.
From Stdlib Require DecimalString.
Import ListNotations.

Local Open Scope string_scope.
Local Open Scope list_scope.
Local Open Scope Z_scope.

(** ** Python string primitives used by the module *)

Module PyStr.

(** [c in chars], for a character and a string of characters. *)
Fixpoint mem (c : ascii) (chars : string) : bool :=
  match chars with
  | EmptyString => false
  | String d chars' => if Ascii.eqb c d then true else mem c chars'
  end.

(** [s.lstrip(chars)]: drop the leading characters that belong to [chars]. *)
Fixpoint lstrip (chars s : string) : string :=
  match s with
  | EmptyString => EmptyString
  | String c s' => if mem c chars then lstrip chars s' else s
  end.

(** [s.rstrip(chars)]: drop the trailing characters that belong to [chars]. *)
Fixpoint rstrip (chars s : string) : string :=
  match s with
  | EmptyString => EmptyString
  | String c s' =>
      match rstrip chars s' with
      | EmptyString => if mem c chars then EmptyString else String c EmptyString
      | r => String c r
      end
  end.

(** [s.strip(chars)]: both ends. *)
Definition strip (chars s : string) : string := lstrip chars (rstrip chars s).

(** [s.startswith(prefix)] *)
Fixpoint startswith (s prefix : string) {struct prefix} : bool :=
  match prefix with
  | EmptyString => true
  | String a prefix' =>
      match s with
      | EmptyString => false
      | String b s' => Ascii.eqb a b && startswith s' prefix'
      end
  end.

(** [s.partition(sep)] for a non-empty [sep]: the part before the first
    occurrence of [sep], the separator itself, and the part after it; when
    [sep] does not occur the result is [(s, "", "")]. *)
Fixpoint partition (sep s : string) : string * string * string :=
  if startswith s sep
  then (EmptyString, sep, String.substring (String.length sep)
                            (String.length s - String.length sep) s)
  else match s with
       | EmptyString => (EmptyString, EmptyString, EmptyString)
       | String c s' =>
           let '(h, m, t) := partition sep s' in (String c h, m, t)
       end.

(** Truth value of a string: [bool(s)]. *)
Definition truthy (s : string) : bool :=
  match s with EmptyString => false | String _ _ => true end.

(** Truth value of a value that may be [None]. *)
Definition truthy_opt (o : option string) : bool :=
  match o with None => false | Some s => truthy s end.

(** [l[:n]] on a list, for any integer [n]: a negative [n] counts from the
    end of the list. *)
Definition slice_to {A : Type} (n : Z) (l : list A) : list A :=
  if n <? 0
  then firstn (Z.to_nat (Z.of_nat (List.length l) + n)) l
  else firstn (Z.to_nat n) l.

End PyStr.

(** ** Constants *)

(** Modelled from the spec: [cloud_browser.common.SEP], which is imported
    but not defined in this module; the path separator convention is the
    single fixed string [/]. *)
Definition SEP : string := "/".

(** Current Rackspace maximum. *)
Definition RS_MAX_GET_OBJS_LIMIT : Z := 10000.

(** ** Listing entries *)

(** One element of [list_objects_info]: a dict with either a ['subdir'] key
    (implied subdirectory) or the metadata of a stored object. *)
Record info : Type := mk_info {
  i_name : option string;
  i_subdir : option string;
  i_bytes : option Z;
  i_content_type : option string;
  i_last_modified : option string
}.

(** [{'subdir': s}] *)
Definition subdir_info (s : string) : info :=
  mk_info None (Some s) None None None.

(** [{'name': n, 'bytes': b, 'content_type': ct, 'last_modified': lm}] *)
Definition file_info (n : string) (b : Z) (ct lm : string) : info :=
  mk_info (Some n) None (Some b) (Some ct) (Some lm).

(** [d.get(key, default)] on an optional field. *)
Definition dict_get {A : Type} (field : option A) (default : A) : A :=
  match field with Some v => v | None => default end.

(** ** The collapsing pass *)

(** The trimmed pseudo-directory name of an entry:
    [info.get('subdir', '').strip(SEP)]. *)
Definition trimmed_subdir (x : info) : string :=
  PyStr.strip SEP (dict_get (i_subdir x) "").

(** The variable [name] after the assignment [name = info.get('name', name)]. *)
Definition next_name (name : option string) (x : info) : option string :=
  match i_name x with Some n => Some n | None => name end.

(** The test [not name or subdir != name] that guards [yield info]. *)
Definition yields (name : option string) (subdir : string) : bool :=
  negb (PyStr.truthy_opt name)
  || negb (match name with Some n => String.eqb subdir n | None => false end).

(** The loop of [_collapse], started with the local [name] equal to [name]. *)
Fixpoint _collapse_from (name : option string) (infos : list info) : list info :=
  match infos with
  | [] => []
  | x :: infos' =>
      let name := next_name name x in
      let subdir := trimmed_subdir x in
      if yields name subdir
      then x :: _collapse_from name infos'
      else _collapse_from name infos'
  end.

(** [list(_collapse(infos))]: remove duplicate dummy / implied objects. *)
Definition _collapse (infos : list info) : list info := _collapse_from None infos.

(** ** Exceptions *)

(** Exception classes of the vendor SDK ([cloudfiles.errors]). *)
Inductive vendor_class : Type :=
| NoSuchContainer
| NoSuchObject
| OtherVendorError (cls : string).

(** The common error kinds of [cloud_browser.cloud.errors]. *)
Inductive cloud_class : Type :=
| CloudException
| NoContainerException
| NoObjectException.

(** Built-in exceptions that the code of this module can raise. *)
Inductive builtin_class : Type :=
| KeyError
| ValueError.

Inductive exn_class : Type :=
| Vendor (c : vendor_class)
| Cloud (c : cloud_class)
| Builtin (c : builtin_class).

(** A raised exception: its class and its message. *)
Record exn : Type := mk_exn { exn_cls : exn_class; exn_msg : string }.

(** The result of code that may raise. *)
Definition result (A : Type) : Type := (exn + A)%type.

Definition raise_ {A : Type} (c : exn_class) (msg : string) : result A :=
  inl (mk_exn c msg).

Definition rbind {A B : Type} (r : result A) (k : A -> result B) : result B :=
  match r with inl e => inl e | inr a => k a end.

(** [d[key]]: a missing key raises [KeyError]. *)
Definition dict_item {A : Type} (key : string) (field : option A) : result A :=
  match field with
  | Some v => inr v
  | None => raise_ (Builtin KeyError) key
  end.

(** ** [datetime.strptime] *)

Module Strptime.

(** A naive [datetime] with second resolution. *)
Record datetime : Type := mk_datetime {
  year : Z; month : Z; day : Z; hour : Z; minute : Z; second : Z
}.

(** The fragment of regular expressions that the directives expand to. *)
Inductive re : Type :=
| Cls (p : ascii -> bool)
| Seq (r1 r2 : re)
| Alt (r1 r2 : re)
| Plus (p : ascii -> bool).

(** Greedy [p+]: the longest run first, then shorter ones. *)
Fixpoint plus_match (p : ascii -> bool) (s : string) : list (string * string) :=
  match s with
  | EmptyString => []
  | String c s' =>
      if p c
      then map (fun '(a, r) => (String c a, r)) (plus_match p s')
             ++ [(String c EmptyString, s')]
      else []
  end.

(** All the ways [r] matches a prefix of [s], in the order a backtracking
    matcher tries them; each is the matched text and the remaining input. *)
Fixpoint re_match (r : re) (s : string) : list (string * string) :=
  match r with
  | Cls p =>
      match s with
      | String c s' => if p c then [(String c EmptyString, s')] else []
      | EmptyString => []
      end
  | Seq r1 r2 =>
      flat_map (fun '(a, s1) =>
                  map (fun '(b, s2) => ((a ++ b)%string, s2)) (re_match r2 s1))
               (re_match r1 s)
  | Alt r1 r2 => re_match r1 s ++ re_match r2 s
  | Plus p => plus_match p s
  end.

Definition lower (c : ascii) : ascii :=
  let n := nat_of_ascii c in
  if andb (Nat.leb 65 n) (Nat.leb n 90) then ascii_of_nat (n + 32) else c.

Definition lower_string (s : string) : string :=
  String.string_of_list_ascii (map lower (String.list_ascii_of_string s)).

(** Character classes; the pattern is compiled with [re.IGNORECASE]. *)
Definition chr_ (x : ascii) : re := Cls (fun c => Ascii.eqb (lower c) (lower x)).
Definition rng (lo hi : ascii) : re :=
  Cls (fun c => andb (Nat.leb (nat_of_ascii lo) (nat_of_ascii c))
                     (Nat.leb (nat_of_ascii c) (nat_of_ascii hi))).
Definition digit : re := rng "0" "9".
Definition is_space (c : ascii) : bool :=
  let n := nat_of_ascii c in
  orb (Nat.eqb n 32) (andb (Nat.leb 9 n) (Nat.leb n 13)).

(** A literal word, one case-insensitive character after the other. *)
Fixpoint word (c : ascii) (s : string) : re :=
  match s with
  | EmptyString => chr_ c
  | String d s' => Seq (chr_ c) (word d s')
  end.

(** [a|b|...] over a non-empty list of alternatives. *)
Fixpoint alts (r : re) (rs : list re) : re :=
  match rs with
  | [] => r
  | r' :: rs' => Alt r (alts r' rs')
  end.

(** Abbreviated day and month names of the C locale, lower-cased. *)
Definition a_weekday : list string :=
  ["mon"; "tue"; "wed"; "thu"; "fri"; "sat"; "sun"]%string.
Definition a_month : list string :=
  ["jan"; "feb"; "mar"; "apr"; "may"; "jun";
   "jul"; "aug"; "sep"; "oct"; "nov"; "dec"]%string.

Definition names_re (names : list string) : option re :=
  match map (fun n => match n with
                      | String c s => word c s
                      | EmptyString => chr_ " "
                      end) names with
  | [] => None
  | r :: rs => Some (alts r rs)
  end.

(** The directives that the two formats of this module use. *)
Inductive directive : Type := dY | dm | dd | dH | dM | dS | da | db.

Definition directive_of (c : ascii) : option directive :=
  if Ascii.eqb c "Y" then Some dY else
  if Ascii.eqb c "m" then Some dm else
  if Ascii.eqb c "d" then Some dd else
  if Ascii.eqb c "H" then Some dH else
  if Ascii.eqb c "M" then Some dM else
  if Ascii.eqb c "S" then Some dS else
  if Ascii.eqb c "a" then Some da else
  if Ascii.eqb c "b" then Some db else None.

(** The regular expression of each directive:
    - [%Y]: [\d\d\d\d]
    - [%m]: [1[0-2]|0[1-9]|[1-9]]
    - [%d]: [3[0-1]|[1-2]\d|0[1-9]|[1-9]| [1-9]]
    - [%H]: [2[0-3]|[0-1]\d|\d]
    - [%M]: [[0-5]\d|\d]
    - [%S]: [6[0-1]|[0-5]\d|\d]
    - [%a], [%b]: the abbreviated names. *)
Definition directive_re (d : directive) : option re :=
  match d with
  | dY => Some (Seq digit (Seq digit (Seq digit digit)))
  | dm => Some (alts (Seq (chr_ "1") (rng "0" "2"))
                     [Seq (chr_ "0") (rng "1" "9"); rng "1" "9"])
  | dd => Some (alts (Seq (chr_ "3") (rng "0" "1"))
                     [Seq (rng "1" "2") digit; Seq (chr_ "0") (rng "1" "9");
                      rng "1" "9"; Seq (chr_ " ") (rng "1" "9")])
  | dH => Some (alts (Seq (chr_ "2") (rng "0" "3"))
                     [Seq (rng "0" "1") digit; digit])
  | dM => Some (alts (Seq (rng "0" "5") digit) [digit])
  | dS => Some (alts (Seq (chr_ "6") (rng "0" "1"))
                     [Seq (rng "0" "5") digit; digit])
  | da => names_re a_weekday
  | db => names_re a_month
  end.

(** A compiled format: each piece is a regular expression, tagged with the
    directive whose group it fills. *)
Definition piece : Type := (option directive * re)%type.

(** Compile a format string: [%x] is a directive, a run of white space
    matches [\s+], any other character matches itself. [in_space] tells
    that the previous character belongs to a run already compiled. *)
Fixpoint compile_from (in_space : bool) (fmt : string) : option (list piece) :=
  match fmt with
  | EmptyString => Some []
  | String c fmt' =>
      if Ascii.eqb c "%" then
        match fmt' with
        | EmptyString => None
        | String x rest =>
            match directive_of x with
            | None => None
            | Some d =>
                match directive_re d, compile_from false rest with
                | Some r, Some ps => Some ((Some d, r) :: ps)
                | _, _ => None
                end
            end
        end
      else if is_space c then
        if in_space then compile_from true fmt'
        else match compile_from true fmt' with
             | Some ps => Some ((None, Plus is_space) :: ps)
             | None => None
             end
      else
        match compile_from false fmt' with
        | Some ps => Some ((None, chr_ c) :: ps)
        | None => None
        end
  end.

Definition compile_format (fmt : string) : option (list piece) :=
  compile_from false fmt.

(** The groups of a match: the text found for each directive. *)
Definition groups : Type := list (directive * string).

(** All the matches of a compiled format against a prefix of [s], in
    backtracking order, each with its groups and the unconverted rest. *)
Fixpoint match_pieces (ps : list piece) (s : string) : list (groups * string) :=
  match ps with
  | [] => [([], s)]
  | (tag, r) :: ps' =>
      flat_map (fun '(txt, s1) =>
                  map (fun '(gs, s2) =>
                         (match tag with
                          | Some d => (d, txt) :: gs
                          | None => gs
                          end, s2))
                      (match_pieces ps' s1))
               (re_match r s)
  end.

(** Value of a decimal digit. *)
Definition digit_value (c : ascii) : option Z :=
  let n := nat_of_ascii c in
  if andb (Nat.leb 48 n) (Nat.leb n 57) then Some (Z.of_nat (n - 48)) else None.

(** [int(txt)] for the text of a numeric group: decimal digits, after a
    blank in the last alternative of [%d]; a blank adds nothing. *)
Fixpoint int_acc (acc : Z) (txt : string) : Z :=
  match txt with
  | EmptyString => acc
  | String c txt' =>
      match digit_value c with
      | Some v => int_acc (10 * acc + v) txt'
      | None => int_acc acc txt'
      end
  end.

Definition int_ (txt : string) : Z := int_acc 0 txt.

(** Position of a name in a list of names, counted from [start]. *)
Fixpoint index_from (start : Z) (names : list string) (n : string) : option Z :=
  match names with
  | [] => None
  | m :: names' =>
      if String.eqb m n then Some start else index_from (start + 1) names' n
  end.

Definition eqb_directive (a b : directive) : bool :=
  match a, b with
  | dY, dY | dm, dm | dd, dd | dH, dH | dM, dM | dS, dS | da, da | db, db => true
  | _, _ => false
  end.

Fixpoint group (d : directive) (gs : groups) : option string :=
  match gs with
  | [] => None
  | (d', txt) :: gs' => if eqb_directive d d' then Some txt else group d gs'
  end.

Definition is_leap (y : Z) : bool :=
  ((y mod 4 =? 0) && negb (y mod 100 =? 0)) || (y mod 400 =? 0).

Definition days_in_month (y m : Z) : Z :=
  if m =? 2 then (if is_leap y then 29 else 28)
  else if (m =? 4) || (m =? 6) || (m =? 9) || (m =? 11) then 30
  else 31.

(** The range checks of the [datetime] constructor. *)
Definition valid_datetime (d : datetime) : bool :=
  (1 <=? year d) && (year d <=? 9999)
  && (1 <=? month d) && (month d <=? 12)
  && (1 <=? day d) && (day d <=? days_in_month (year d) (month d))
  && (0 <=? hour d) && (hour d <=? 23)
  && (0 <=? minute d) && (minute d <=? 59)
  && (0 <=? second d) && (second d <=? 59).

(** The fields of the result: a directive that is absent from the format
    leaves the default (1900-01-01 00:00:00); the day name found by [%a] is
    not part of a [datetime]. *)
Definition datetime_of_groups (gs : groups) : datetime :=
  let num d default :=
    match group d gs with Some txt => int_ txt | None => default end in
  let month_ :=
    match group dm gs, group db gs with
    | Some txt, _ => int_ txt
    | None, Some txt => dict_get (index_from 1 a_month (lower_string txt)) 1
    | None, None => 1
    end in
  mk_datetime (num dY 1900) month_ (num dd 1) (num dH 0) (num dM 0) (num dS 0).

(** [datetime.strptime(data_string, format)]: the first match of the
    compiled format must consume the whole string, and the fields must form
    a valid date and time; anything else raises [ValueError]. *)
Definition strptime (data_string format : string) : result datetime :=
  match compile_format format with
  | None => raise_ (Builtin ValueError) "bad directive in format"
  | Some ps =>
      match match_pieces ps data_string with
      | [] => raise_ (Builtin ValueError) "time data does not match format"
      | (gs, rest) :: _ =>
          if PyStr.truthy rest
          then raise_ (Builtin ValueError) "unconverted data remains"
          else
            let d := datetime_of_groups gs in
            if valid_datetime d then inr d
            else raise_ (Builtin ValueError) "value out of range"
      end
  end.

End Strptime.

(** ** Objects *)

(** Modelled from the spec: the entry-type enumeration [type_cls] of the
    base adapter module ([cloud_browser.cloud.base], not part of this
    module), which is FILE | SUBDIR. *)
Inductive ObjType : Type := FILE | SUBDIR.

(** Native object of the vendor SDK, as [from_obj] reads it. *)
Record NativeObject : Type := mk_native_object {
  no_name : string;
  no_size : Z;
  no_content_type : string;
  no_last_modified : string;
  no_read : result string
}.

(** Native container of the vendor SDK: its attributes and the two calls
    that the container wrapper issues, each either raising or returning. *)
Record NativeContainer : Type := mk_native_container {
  nc_name : string;
  nc_object_count : Z;
  nc_size_used : Z;
  list_objects_info :
    Z -> string -> string -> option string -> result (list info);
  get_object_native : string -> result NativeObject
}.

(** Native connection of the vendor SDK. *)
Record NativeConnection : Type := mk_native_connection {
  get_container_native : string -> result NativeContainer
}.

(** [RackspaceConnection]: the attributes and the native handle. *)
Record RackspaceConnection : Type := mk_connection {
  account : string;
  secret_key : string;
  rs_servicenet : bool;
  native_conn : NativeConnection
}.

(** [RackspaceContainer]: the constructor arguments (connection, name, count,
    size) and the native container that [self.native_container] stands for,
    taken as already fetched. *)
Record RackspaceContainer : Type := mk_container {
  conn : RackspaceConnection;
  cont_name : string;
  cont_count : Z;
  cont_size : Z;
  native_container : NativeContainer
}.

(** [RackspaceObject]: the arguments its constructor is called with; a
    keyword that the caller leaves out is [None]. *)
Record RackspaceObject : Type := mk_object {
  container : RackspaceContainer;
  name : string;
  size : option Z;
  content_type : option string;
  last_modified : option Strptime.datetime;
  obj_type : ObjType
}.

(** Create from subdirectory info object. *)
Definition from_subdir (container : RackspaceContainer) (info_obj : info)
  : result RackspaceObject :=
  rbind (dict_item "subdir" (i_subdir info_obj)) (fun subdir =>
  inr (mk_object container subdir None None None SUBDIR)).

(** Choose object type from content type. *)
Definition choose_type (content_type : string) : ObjType :=
  if String.eqb content_type "application/directory" then SUBDIR else FILE.

(** Create from regular info object. *)
Definition from_file_info (container : RackspaceContainer) (info_obj : info)
  : result RackspaceObject :=
  rbind (dict_item "last_modified" (i_last_modified info_obj)) (fun lm =>
  let dt_str := fst (fst (PyStr.partition "." lm)) in
  rbind (Strptime.strptime dt_str "%Y-%m-%dT%H:%M:%S") (fun last_modified =>
  rbind (dict_item "name" (i_name info_obj)) (fun name =>
  rbind (dict_item "bytes" (i_bytes info_obj)) (fun size =>
  rbind (dict_item "content_type" (i_content_type info_obj)) (fun content_type =>
  inr (mk_object container name (Some size) (Some content_type)
         (Some last_modified) (choose_type content_type))))))).

(** Create from subdirectory or file info object. *)
Definition from_info (container : RackspaceContainer) (info_obj : info)
  : result RackspaceObject :=
  match i_subdir info_obj with
  | Some _ => from_subdir container info_obj
  | None => from_file_info container info_obj
  end.

(** Create from a fetched native object. *)
Definition from_obj (container : RackspaceContainer) (file_obj : NativeObject)
  : result RackspaceObject :=
  let dt_str := no_last_modified file_obj in
  rbind (Strptime.strptime dt_str "%a, %d %b %Y %H:%M:%S GMT") (fun last_modified =>
  inr (mk_object container (no_name file_obj) (Some (no_size file_obj))
         (Some (no_content_type file_obj)) (Some last_modified)
         (choose_type (no_content_type file_obj)))).

(** A list comprehension [[f(x) for x in xs]] whose body may raise. *)
Fixpoint map_result {A B : Type} (f : A -> result B) (xs : list A)
  : result (list B) :=
  match xs with
  | [] => inr []
  | x :: xs' =>
      rbind (f x) (fun y => rbind (map_result f xs') (fun ys => inr (y :: ys)))
  end.

(** ** Vendor calls *)

(** The requests that reach the vendor SDK. *)
Inductive vendor_call : Type :=
| ListObjectsInfo (limit : Z) (delimiter prefix : string) (marker : option string)
| GetObject (path : string)
| ReadObject (name : string)
| GetContainer (name : string).


(** Code that talks to the vendor: it extends the log of the calls issued
    so far, and raises or returns. *)
Definition M (A : Type) : Type := list vendor_call -> list vendor_call * result A.

Definition ret {A : Type} (a : A) : M A := fun log => (log, inr a).

Definition raise {A : Type} (c : exn_class) (msg : string) : M A :=
  fun log => (log, raise_ c msg).

Definition bind {A B : Type} (m : M A) (k : A -> M B) : M B :=
  fun log =>
    match m log with
    | (log', inl e) => (log', inl e)
    | (log', inr a) => k a log'
    end.

(** Evaluate a pure computation that may raise. *)
Definition lift {A : Type} (r : result A) : M A := fun log => (log, r).

(** Issue the vendor call [c], whose outcome is [r]. *)
Definition call {A : Type} (c : vendor_call) (r : result A) : M A :=
  fun log => (log ++ [c], r).

Notation "x <- m ;; k" := (bind m (fun x => k))
  (at level 61, m at next level, right associativity).

(** ** Exception translator *)

Definition eqb_vendor_class (a b : vendor_class) : bool :=
  match a, b with
  | NoSuchContainer, NoSuchContainer => true
  | NoSuchObject, NoSuchObject => true
  | OtherVendorError x, OtherVendorError y => String.eqb x y
  | _, _ => false
  end.

(** A translator is given by its [translations] table. *)
Record CloudExceptionWrapper : Type := mk_wrapper {
  translations : list (vendor_class * cloud_class)
}.

(** Exception translator. *)
Definition RackspaceExceptionWrapper : CloudExceptionWrapper :=
  {| translations := [ (NoSuchContainer, NoContainerException);
                       (NoSuchObject, NoObjectException) ] |}.

Fixpoint lookup_translation (table : list (vendor_class * cloud_class))
  (c : vendor_class) : option cloud_class :=
  match table with
  | [] => None
  | (k, v) :: table' =>
      if eqb_vendor_class c k then Some v else lookup_translation table' c
  end.

(** Modelled from the spec: the translation step of
    [errors.CloudExceptionWrapper], whose code is not part of this module.
    A vendor exception whose class is in the table is re-raised as the
    mapped common error kind; any other vendor exception becomes a generic
    [CloudException]; both carry the original message. An exception that
    is not a vendor exception propagates as it is. *)
Definition translate (w : CloudExceptionWrapper) (e : exn) : exn :=
  match exn_cls e with
  | Vendor v =>
      match lookup_translation (translations w) v with
      | Some c => mk_exn (Cloud c) (exn_msg e)
      | None => mk_exn (Cloud CloudException) (exn_msg e)
      end
  | _ => e
  end.

(** Modelled from the spec: the decorator [errors.CloudExceptionWrapper()]
    applied to an operation: run it, and translate what it raises. *)
Definition wrap {A : Type} (w : CloudExceptionWrapper) (operation : M A) : M A :=
  fun log =>
    match operation log with
    | (log', inl e) => (log', inl (translate w e))
    | (log', inr a) => (log', inr a)
    end.

Definition wrap_rs_errors {A : Type} : M A -> M A := wrap RackspaceExceptionWrapper.

(** ** Operations of [RackspaceObject] *)

(** Return native storage object. *)
Definition _get_object (self : RackspaceObject) : M NativeObject :=
  wrap_rs_errors
    (call (GetObject (name self))
          (get_object_native (native_container (container self)) (name self))).

(** Return contents of object. *)
Definition _read (self : RackspaceObject) (native_obj : NativeObject) : M string :=
  wrap_rs_errors (call (ReadObject (no_name native_obj)) (no_read native_obj)).

(** ** Operations of [RackspaceContainer] *)

(** Decimal text of an integer, for [%s]. *)
Definition str_of_int (n : Z) : string :=
  DecimalString.NilZero.string_of_int (Z.to_int n).

(** The prefix handed to the listing call: [path + SEP if path else '']. *)
Definition listing_prefix (path : string) : string :=
  if PyStr.truthy path then (path ++ SEP)%string else "".

(** The test of the marker check:
    [marker and object_infos[0].get('subdir', '').strip(SEP) == marker]. *)
Definition marker_matches (marker : option string) (first : info) : bool :=
  match marker with
  | Some m => PyStr.truthy m && String.eqb (trimmed_subdir first) m
  | None => false
  end.

(** What [get_objects] does with the page that the vendor returned, up to
    the construction of the objects. *)
Definition select_infos (marker : option string) (orig_limit : Z)
  (object_infos : list info) : list info :=
  match object_infos with
  | [] => object_infos
  | first :: rest =>
      (* Check first object for marker match and truncate if so. *)
      let object_infos :=
        if marker_matches marker first then rest else object_infos in
      (* Collapse subdirs and dummy objects. *)
      let object_infos := _collapse object_infos in
      (* If we have over the original limit, truncate. *)
      PyStr.slice_to orig_limit object_infos
  end.

(** The body of [get_objects], before decoration. *)
Definition get_objects_body (self : RackspaceContainer) (path : string)
  (marker : option string) (limit : Z) : M (list RackspaceObject) :=
  (* Enforce maximum object size. *)
  let orig_limit := limit in
  if limit >? RS_MAX_GET_OBJS_LIMIT
  then raise (Cloud CloudException)
         ("Object limit must be less than " ++ str_of_int RS_MAX_GET_OBJS_LIMIT)
  else
    (* Adjust limit to +1 to handle marker object as first result. *)
    let limit := limit + 1 in
    let path := listing_prefix path in
    object_infos <- call (ListObjectsInfo limit SEP path marker)
                      (list_objects_info (native_container self)
                         limit SEP path marker) ;;
    let object_infos := select_infos marker orig_limit object_infos in
    lift (map_result (from_info self) object_infos).

(** Get objects. *)
Definition get_objects (self : RackspaceContainer) (path : string)
  (marker : option string) (limit : Z) : M (list RackspaceObject) :=
  wrap_rs_errors (get_objects_body self path marker limit).

(** Get single object. *)
Definition get_object (self : RackspaceContainer) (path : string)
  : M RackspaceObject :=
  wrap_rs_errors
    (obj <- call (GetObject path)
              (get_object_native (native_container self) path) ;;
     lift (from_obj self obj)).

(** Return native container object. *)
Definition _get_container (self : RackspaceContainer) : M NativeContainer :=
  wrap_rs_errors
    (call (GetContainer (cont_name self))
          (get_container_native (native_conn (conn self)) (cont_name self))).

(** ** Operations of [RackspaceConnection] *)

Module Connection.

(** Return single container. *)
Definition _get_container (self : RackspaceConnection) (path : string)
  : M RackspaceContainer :=
  wrap_rs_errors
    (cont <- call (GetContainer path)
               (get_container_native (native_conn self) path) ;;
     ret (mk_container self (nc_name cont) (nc_object_count cont)
            (nc_size_used cont) cont)).

End Connection.

(** ** Vocabulary of the listing rules *)

(** A pseudo-directory entry: the dict has a ['subdir'] key. *)
Definition is_pseudo (x : info) : bool :=
  match i_subdir x with Some _ => true | None => false end.

(** A named entry: the dict has a ['name'] key. *)
Definition is_named (x : info) : bool :=
  match i_name x with Some _ => true | None => false end.

(** The name of the most recently seen named entry among [seen], the
    entries read so far in listing order; [None] when there is none. *)
Fixpoint last_name (seen : list info) : option string :=
  match seen with
  | [] => None
  | x :: seen' =>
      match last_name seen' with
      | Some n => Some n
      | None => i_name x
      end
  end.

(** The rule for dropping the entry [x] read after [pre]: [x] is a
    pseudo-directory entry, a named entry has been seen, and the trimmed
    name of [x] equals the most recent name, which is not empty. *)
Definition dropped (pre : list info) (x : info) : bool :=
  match i_subdir x with
  | None => false
  | Some sd =>
      match last_name (pre ++ [x]) with
      | Some n => PyStr.truthy n && String.eqb (PyStr.strip SEP sd) n
      | None => false
      end
  end.

(** The same rule without the test that the name is not empty. *)
Definition dropped_any_name (pre : list info) (x : info) : bool :=
  match i_subdir x with
  | None => false
  | Some sd =>
      match last_name (pre ++ [x]) with
      | Some n => String.eqb (PyStr.strip SEP sd) n
      | None => false
      end
  end.

(** The tracked name after reading [seen], starting from [name]. *)
Definition tracked (name : option string) (seen : list info) : option string :=
  match last_name seen with Some n => Some n | None => name end.

(** An implied-subdirectory entry as the vendor lists it: a ['subdir'] key
    and no ['name'] key. *)
Definition is_implied (x : info) : bool := is_pseudo x && negb (is_named x).

(** The request that [get_objects] sends to the vendor. *)
Definition listing_call (path : string) (marker : option string) (limit : Z)
  : vendor_call :=
  ListObjectsInfo (limit + 1) SEP (listing_prefix path) marker.

(** The answer of the vendor to that request. *)
Definition listing_answer (self : RackspaceContainer) (path : string)
  (marker : option string) (limit : Z) : result (list info) :=
  list_objects_info (native_container self)
    (limit + 1) SEP (listing_prefix path) marker.

(** An exception of a built-in class. *)
Definition is_builtin (e : exn) : Prop := exists b, exn_cls e = Builtin b.

(** ** Example data *)

(** A dummy directory object named [photos] and its implied subdirectory. *)
Definition photos_dir : info :=
  file_info "photos" 0 "application/directory" "2020-01-01T00:00:00".
Definition photos_implied : info := subdir_info "photos/".

(** A stored object whose name is the empty string, as a directory marker
    and as a plain file. *)
Definition unnamed_dir : info :=
  file_info "" 0 "application/directory" "2020-01-01T00:00:00".
Definition unnamed_file : info :=
  file_info "" 7 "text/plain" "2020-01-01T00:00:00".

(** A plain file named [docs]. *)
Definition docs_file : info :=
  file_info "docs" 12 "text/plain" "2020-01-01T00:00:00".

(** A native container whose listing call returns [page] whatever the
    request, and in which no object can be fetched. *)
Definition page_container (page : list info) : NativeContainer :=
  mk_native_container "media" 0 0
    (fun _ _ _ _ => inr page)
    (fun path => raise_ (Vendor NoSuchObject) path).

(** A connection to an account without containers. *)
Definition empty_account : RackspaceConnection :=
  mk_connection "account" "secret" false
    (mk_native_connection (fun n => raise_ (Vendor NoSuchContainer) n)).

(** The container wrapper over [page_container page]. *)
Definition container_of_page (page : list info) : RackspaceContainer :=
  mk_container empty_account "media" 0 0 (page_container page).

(** The raw page of the worked scenario: the implied subdirectory [a/], the
    dummy directory object [a], and the file [b.txt]. *)
Definition scenario_page : list info :=
  [ subdir_info "a/";
    file_info "a" 0 "application/directory" "2020-01-01T00:00:00";
    file_info "b.txt" 5 "text/plain" "2020-01-01T00:00:00" ].

(** 2020-01-01 00:00:00 *)
Definition new_year_2020 : Strptime.datetime :=
  Strptime.mk_datetime 2020 1 1 0 0 0.

(** Name and type of each object of a returned sequence. *)
Definition names_and_types (objs : list RackspaceObject)
  : list (string * ObjType) :=
  map (fun o => (name o, obj_type o)) objs.

(** Number of path separators at the end of a string. *)
Definition trailing_separators (s : string) : nat :=
  String.length s - String.length (PyStr.rstrip SEP s).


(** ** Connection set-up *)

(** A value of the keyword dict handed to [cloudfiles.get_connection]. *)
Inductive kwarg : Type :=
| KwStr (s : string)
| KwBool (b : bool).

(** A keyword dict, in insertion order. *)
Definition kwargs : Type := list (string * kwarg).

(** [d[key]] as a lookup that may miss. *)
Fixpoint kw_lookup (key : string) (d : kwargs) : option kwarg :=
  match d with
  | [] => None
  | (k, v) :: d' => if String.eqb k key then Some v else kw_lookup key d'
  end.

(** [d[key] = v]: replace the value of an existing key, or add the key. *)
Fixpoint kw_set (key : string) (v : kwarg) (d : kwargs) : kwargs :=
  match d with
  | [] => [(key, v)]
  | (k, w) :: d' =>
      if String.eqb k key then (k, v) :: d' else (k, w) :: kw_set key v d'
  end.

(** Return native connection object. [get_connection] stands for the
    function [cloudfiles.get_connection] of the vendor SDK. *)
Definition _get_connection (get_connection : kwargs -> M NativeConnection)
  (self : RackspaceConnection) : M NativeConnection :=
  wrap_rs_errors
    (let kwargs :=
       [ ("username", KwStr (account self));
         ("api_key", KwStr (secret_key self)) ] in
     (* Only add kwarg for servicenet if True because user could set
        environment variable 'RACKSPACE_SERVICENET' separately. *)
     let kwargs :=
       if rs_servicenet self
       then kw_set "servicenet" (KwBool true) kwargs
       else kwargs in
     get_connection kwargs).

(** ** More vocabulary *)

(** [l1] is made of entries of [l2], in the order of [l2]. *)
Inductive subseq {A : Type} : list A -> list A -> Prop :=
| subseq_nil : subseq [] []
| subseq_skip (x : A) (l1 l2 : list A) : subseq l1 l2 -> subseq l1 (x :: l2)
| subseq_keep (x : A) (l1 l2 : list A) :
    subseq l1 l2 -> subseq (x :: l1) (x :: l2).

(** The page after the marker check: without its first entry when that
    entry matches the marker. *)
Definition skip_marker (marker : option string) (page : list info)
  : list info :=
  match page with
  | [] => []
  | first :: rest => if marker_matches marker first then rest else page
  end.

(** The vendor never puts a ['name'] key in an implied-subdirectory entry:
    every pseudo-directory entry of the page is nameless. *)
Definition vendor_shaped (page : list info) : Prop :=
  Forall (fun x => is_pseudo x = true -> i_name x = None) page.

(** The part of [last_modified] that is parsed. *)
Definition timestamp_text (lm : string) : string :=
  fst (fst (PyStr.partition "." lm)).

(** A directory marker without a timestamp, and the native object of the
    file [docs] as a fetch returns it. *)
Definition broken_dir : info :=
  mk_info (Some "broken") None (Some 0) (Some "application/directory") None.
Definition docs_native : NativeObject :=
  mk_native_object "docs" 12 "text/plain" "Wed, 01 Jan 2020 00:00:00 GMT"
    (inr "contents").

(** An entry with both a ['name'] and a ['subdir'] key. *)
Definition mixed_entry : info :=
  mk_info (Some "a") (Some "a/") (Some 0) (Some "text/plain")
    (Some "2020-01-01T00:00:00").

(** A vendor [get_connection] that accepts everything and logs nothing. *)
Definition open_account (k : kwargs) : M NativeConnection :=
  ret (native_conn empty_account).

(** A container in which every path fetches the native object [obj]. *)
Definition fetch_container (obj : NativeObject) : RackspaceContainer :=
  mk_container empty_account "media" 1 (no_size obj)
    (mk_native_container "media" 1 (no_size obj)
       (fun _ _ _ _ => inr [])
       (fun _ => inr obj)).

(** The native object of [docs] with a date in another time zone. *)
Definition docs_native_cet : NativeObject :=
  mk_native_object "docs" 12 "text/plain" "Wed, 01 Jan 2020 00:00:00 CET"
    (inr "contents").

(** * Properties *)

(** ** The collapsing pass *)

Lemma last_name_app (l1 l2 : list info) :
  last_name (l1 ++ l2) =
  match last_name l2 with Some n => Some n | None => last_name l1 end.
Proof.
  induction l1 as [|x l1 IH]; simpl.
  - destruct (last_name l2); reflexivity.
  - rewrite IH. destruct (last_name l2); reflexivity.
Qed.

Lemma tracked_cons (name : option string) (x : info) (l : list info) :
  tracked name (x :: l) = tracked (next_name name x) l.
Proof.
  unfold tracked, next_name. simpl.
  destruct (last_name l); [reflexivity|]. destruct (i_name x); reflexivity.
Qed.

Lemma tracked_single (name : option string) (x : info) :
  tracked name [x] = next_name name x.
Proof. rewrite tracked_cons. reflexivity. Qed.

Lemma tracked_None (seen : list info) : tracked None seen = last_name seen.
Proof. unfold tracked. destruct (last_name seen); reflexivity. Qed.

(** The loop reads a page piece by piece. *)
Lemma _collapse_from_app (name : option string) (l1 l2 : list info) :
  _collapse_from name (l1 ++ l2) =
  (_collapse_from name l1 ++ _collapse_from (tracked name l1) l2)%list.
Proof.
  revert name. induction l1 as [|x l1 IH]; intros name.
  - unfold tracked. reflexivity.
  - rewrite tracked_cons. simpl.
    destruct (yields (next_name name x) (trimmed_subdir x));
      rewrite IH; reflexivity.
Qed.

Lemma strip_empty (chars : string) : PyStr.strip chars "" = "".
Proof. reflexivity. Qed.

Lemma truthy_nonempty (n : string) : n <> "" -> PyStr.truthy n = true.
Proof. destruct n; [congruence | reflexivity]. Qed.

(** An entry without a ['subdir'] key is always yielded. *)
Lemma yields_not_pseudo (name : option string) (x : info) :
  i_subdir x = None -> yields name (trimmed_subdir x) = true.
Proof.
  intros H. unfold yields, trimmed_subdir. rewrite H. simpl dict_get.
  rewrite strip_empty. destruct name as [[|c n]|]; reflexivity.
Qed.

(** The guard of [yield] is the negation of the dropping rule. *)
Lemma yields_dropped (pre : list info) (x : info) :
  yields (next_name (last_name pre) x) (trimmed_subdir x) = negb (dropped pre x).
Proof.
  unfold dropped. destruct (i_subdir x) as [sd|] eqn:Hsd.
  - rewrite last_name_app. simpl last_name.
    unfold yields, next_name, trimmed_subdir. rewrite Hsd. simpl dict_get.
    destruct (i_name x) as [n|]; simpl.
    + destruct (PyStr.truthy n); reflexivity.
    + destruct (last_name pre) as [n|]; simpl; [|reflexivity].
      destruct (PyStr.truthy n); reflexivity.
  - rewrite yields_not_pseudo by assumption. reflexivity.
Qed.

(** Every entry of a page is either yielded or dropped by the rule. *)
Lemma _collapse_decompose (pre : list info) (x : info) (post : list info) :
  _collapse (pre ++ x :: post) =
  (_collapse pre ++ (if dropped pre x then [] else [x])
     ++ _collapse_from (last_name (pre ++ [x])) post)%list.
Proof.
  unfold _collapse. rewrite _collapse_from_app. f_equal.
  rewrite tracked_None. simpl _collapse_from.
  rewrite yields_dropped.
  assert (Hn : next_name (last_name pre) x = last_name (pre ++ [x])).
  { rewrite last_name_app. simpl. unfold next_name.
    destruct (i_name x); reflexivity. }
  rewrite Hn. destruct (dropped pre x); reflexivity.
Qed.

(** A nameless pseudo-directory entry whose trimmed name is the tracked,
    non-empty name is not yielded, and leaves the tracked name alone. *)
Lemma _collapse_from_duplicate (N : string) (p : info) (post : list info) :
  N <> "" -> i_name p = None -> trimmed_subdir p = N ->
  _collapse_from (Some N) (p :: post) = _collapse_from (Some N) post.
Proof.
  intros HN Hname Htrim. simpl. unfold next_name. rewrite Hname, Htrim.
  unfold yields. simpl. rewrite (truthy_nonempty _ HN), String.eqb_refl.
  reflexivity.
Qed.

(** A named entry that is not a pseudo-directory is yielded, and its name
    becomes the tracked one. *)
Lemma _collapse_from_real (name : option string) (N : string) (x : info)
  (post : list info) :
  i_name x = Some N -> i_subdir x = None ->
  _collapse_from name (x :: post) = x :: _collapse_from (Some N) post.
Proof.
  intros Hname Hsub. simpl. unfold next_name. rewrite Hname.
  rewrite (yields_not_pseudo _ _ Hsub). reflexivity.
Qed.

Lemma last_name_nameless (l : list info) :
  Forall (fun x => i_name x = None) l -> last_name l = None.
Proof.
  induction 1 as [|x l Hx _ IH]; simpl; [reflexivity|].
  rewrite IH. exact Hx.
Qed.

(** While no name is tracked, nameless entries are yielded unchanged. *)
Lemma _collapse_from_nameless (ps rest : list info) :
  Forall (fun x => i_name x = None) ps ->
  _collapse_from None (ps ++ rest) = (ps ++ _collapse_from None rest)%list.
Proof.
  induction 1 as [|x l Hx _ IH]; simpl; [reflexivity|].
  unfold next_name. rewrite Hx. unfold yields at 1. simpl.
  rewrite IH. reflexivity.
Qed.

(** What [_collapse] yields comes from the page. *)
Lemma _collapse_from_incl (name : option string) (l : list info) (x : info) :
  In x (_collapse_from name l) -> In x l.
Proof.
  revert name. induction l as [|y l IH]; intros name; simpl; [tauto|].
  destruct (yields (next_name name y) (trimmed_subdir y)); simpl.
  - intros [H|H]; [left; exact H | right; eapply IH; exact H].
  - intros H. right. eapply IH; exact H.
Qed.

Lemma _collapse_from_length (name : option string) (l : list info) :
  (List.length (_collapse_from name l) <= List.length l)%nat.
Proof.
  revert name. induction l as [|y l IH]; intros name; simpl; [lia|].
  destruct (yields (next_name name y) (trimmed_subdir y)); simpl;
    specialize (IH (next_name name y)); lia.
Qed.


(** ** Dummy directory objects and implied subdirectories *)

(** C1, as stated, fails on an object whose name is the empty string: the
    directory marker named [""] is followed by the implied subdirectory
    ["/"], whose trimmed name is [""] as well, and [_collapse] yields both
    entries although the rule without the emptiness test drops the second. *)
Lemma collapse_pair_empty_name_kept :
  i_name unnamed_dir = Some ""
  /\ i_subdir unnamed_dir = None
  /\ i_content_type unnamed_dir = Some "application/directory"
  /\ is_implied (subdir_info "/") = true
  /\ trimmed_subdir (subdir_info "/") = ""
  /\ dropped_any_name [unnamed_dir] (subdir_info "/") = true
  /\ _collapse [unnamed_dir; subdir_info "/"] = [unnamed_dir; subdir_info "/"].
Proof. repeat split; reflexivity. Qed.

(** C1 (amended): when a real entry named [N], with [N] not empty and of
    content type application/directory, is immediately followed by an
    implied-subdirectory entry whose trimmed name is [N], the pair yields
    the real entry alone, and the object built from it has name [N] and
    type SUBDIR. More generally every entry [x] of a page is dropped
    exactly when [dropped] holds, that is when it is a pseudo-directory
    entry whose trimmed name equals the most recently seen name and that
    name is not empty; every other entry is kept. *)
Theorem collapse_dummy_implied_pair
  (pre post : list info) (real implied : info) (N : string)
  (c : RackspaceContainer)
  (Hname : i_name real = Some N)
  (Hreal : i_subdir real = None)
  (Hct : i_content_type real = Some "application/directory")
  (HN : N <> "")
  (Himplied : is_implied implied = true)
  (Htrim : trimmed_subdir implied = N) :
  _collapse (pre ++ real :: implied :: post)
  = (_collapse pre ++ real :: _collapse_from (Some N) post)%list
  /\ (forall o, from_info c real = inr o -> name o = N /\ obj_type o = SUBDIR)
  /\ (forall (pre' : list info) (x : info) (post' : list info),
        _collapse (pre' ++ x :: post')
        = (_collapse pre' ++ (if dropped pre' x then [] else [x])
             ++ _collapse_from (last_name (pre' ++ [x])) post')%list).
Proof.
  assert (Hnameless : i_name implied = None).
  { unfold is_implied, is_named in Himplied.
    destruct (i_name implied); [|reflexivity].
    rewrite andb_false_r in Himplied. discriminate. }
  repeat split.
  - unfold _collapse.
    rewrite _collapse_from_app. f_equal.
    rewrite (_collapse_from_real _ N) by assumption.
    f_equal. apply _collapse_from_duplicate; assumption.
  - unfold from_info, from_file_info in H. rewrite Hreal, Hname, Hct in H.
    destruct (dict_item "last_modified" (i_last_modified real)); [discriminate|].
    simpl in H.
    destruct (Strptime.strptime _ _); [discriminate|]. simpl in H.
    destruct (dict_item "bytes" (i_bytes real)); [discriminate|]. simpl in H.
    injection H as <-. reflexivity.
  - unfold from_info, from_file_info in H. rewrite Hreal, Hname, Hct in H.
    destruct (dict_item "last_modified" (i_last_modified real)); [discriminate|].
    simpl in H.
    destruct (Strptime.strptime _ _); [discriminate|]. simpl in H.
    destruct (dict_item "bytes" (i_bytes real)); [discriminate|]. simpl in H.
    injection H as <-. reflexivity.
  - apply _collapse_decompose.
Qed.

Lemma collapse_dummy_implied_pair_witness :
  (_collapse ([subdir_info "alpha/"] ++ photos_dir :: photos_implied :: [docs_file])
   = [subdir_info "alpha/"; photos_dir; docs_file])
  /\ (exists o, from_info (container_of_page []) photos_dir = inr o
                /\ name o = "photos" /\ obj_type o = SUBDIR).
Proof.
  destruct (collapse_dummy_implied_pair
              [subdir_info "alpha/"] [docs_file] photos_dir photos_implied
              "photos" (container_of_page []))
    as [Hpair [Hobj _]]; try reflexivity; try discriminate.
  split.
  - rewrite Hpair. reflexivity.
  - destruct (from_info (container_of_page []) photos_dir) as [e|o] eqn:E.
    + vm_compute in E. discriminate.
    + exists o. split; [reflexivity | apply Hobj; reflexivity].
Defined.

(** C10, as stated, fails when the most recently seen name is the empty
    string: the plain file named [""] is followed by the implied
    subdirectories ["x/"] and ["//"]; the trimmed name of the last one is
    [""], the tracked name, and yet every entry is yielded. *)
Lemma collapse_empty_name_across_pseudo_kept :
  i_name unnamed_file = Some ""
  /\ is_implied (subdir_info "x/") = true
  /\ is_implied (subdir_info "//") = true
  /\ trimmed_subdir (subdir_info "//") = ""
  /\ last_name [unnamed_file; subdir_info "x/"; subdir_info "//"] = Some ""
  /\ _collapse [unnamed_file; subdir_info "x/"; subdir_info "//"]
     = [unnamed_file; subdir_info "x/"; subdir_info "//"].
Proof. repeat split; reflexivity. Qed.

(** C10 (amended): a pseudo-directory entry [p] is dropped whenever its
    trimmed name equals the name [N] of the most recently seen named entry
    [e] and [N] is not empty, whatever pseudo-directory entries [mids] lie
    between them (they do not reset the tracked name) and whatever the
    content type of [e]; and as long as no named entry has been seen, every
    pseudo-directory entry is kept. *)
Theorem collapse_drops_across_pseudo_entries
  (pre mids post : list info) (e p : info) (N : string)
  (He : i_name e = Some N)
  (HN : N <> "")
  (Hmids : Forall (fun x => is_implied x = true) mids)
  (Hp : is_implied p = true)
  (Htrim : trimmed_subdir p = N) :
  _collapse (pre ++ e :: mids ++ p :: post)
  = (_collapse (pre ++ e :: mids) ++ _collapse_from (Some N) post)%list
  /\ (forall ps rest : list info,
        Forall (fun x => is_implied x = true) ps ->
        _collapse (ps ++ rest) = (ps ++ _collapse rest)%list).
Proof.
  assert (Hnameless : forall x, is_implied x = true -> i_name x = None).
  { intros x Hx. unfold is_implied, is_named in Hx.
    destruct (i_name x); [|reflexivity].
    rewrite andb_false_r in Hx. discriminate. }
  assert (Hall : forall l, Forall (fun x => is_implied x = true) l ->
                           Forall (fun x => i_name x = None) l).
  { intros l Hl. eapply Forall_impl; [|exact Hl]. exact Hnameless. }
  split.
  - unfold _collapse.
    replace (pre ++ e :: mids ++ p :: post)%list
      with ((pre ++ e :: mids) ++ p :: post)%list
      by (rewrite <- app_assoc; reflexivity).
    rewrite (_collapse_from_app None (pre ++ e :: mids)). f_equal.
    assert (Ht : tracked None (pre ++ e :: mids) = Some N).
    { rewrite tracked_None, last_name_app. simpl last_name.
      rewrite (last_name_nameless mids (Hall _ Hmids)). rewrite He.
      reflexivity. }
    rewrite Ht. apply _collapse_from_duplicate; auto.
  - intros ps rest Hps. unfold _collapse.
    apply _collapse_from_nameless. auto.
Qed.

Lemma collapse_drops_across_pseudo_entries_witness :
  _collapse ([subdir_info "alpha/"] ++ docs_file
              :: [subdir_info "beta/"; subdir_info "gamma/"]
              ++ subdir_info "/docs/" :: [photos_dir])
  = [subdir_info "alpha/"; docs_file; subdir_info "beta/";
     subdir_info "gamma/"; photos_dir]
  /\ _collapse ([subdir_info "docs/"; subdir_info "docs/"] ++ [docs_file])
     = [subdir_info "docs/"; subdir_info "docs/"; docs_file].
Proof.
  destruct (collapse_drops_across_pseudo_entries
              [subdir_info "alpha/"]
              [subdir_info "beta/"; subdir_info "gamma/"]
              [photos_dir] docs_file (subdir_info "/docs/") "docs")
    as [Hdrop Hkeep]; try reflexivity; try discriminate.
  - repeat constructor.
  - split.
    + rewrite Hdrop. reflexivity.
    + rewrite Hkeep; [reflexivity | repeat constructor].
Defined.

(** ** What the constructors raise *)

Lemma dict_item_builtin {A : Type} (key : string) (field : option A) (e : exn) :
  dict_item key field = inl e -> is_builtin e.
Proof.
  destruct field; simpl; [discriminate|].
  intros H. injection H as <-. exists KeyError. reflexivity.
Qed.

Lemma strptime_builtin (data_string format : string) (e : exn) :
  Strptime.strptime data_string format = inl e -> is_builtin e.
Proof.
  unfold Strptime.strptime.
  destruct (Strptime.compile_format format) as [ps|].
  - destruct (Strptime.match_pieces ps data_string) as [|[gs rest] tl].
    + intros H. injection H as <-. exists ValueError. reflexivity.
    + destruct (PyStr.truthy rest).
      * intros H. injection H as <-. exists ValueError. reflexivity.
      * destruct (Strptime.valid_datetime _); [discriminate|].
        intros H. injection H as <-. exists ValueError. reflexivity.
  - intros H. injection H as <-. exists ValueError. reflexivity.
Qed.

Lemma from_info_builtin (c : RackspaceContainer) (x : info) (e : exn) :
  from_info c x = inl e -> is_builtin e.
Proof.
  unfold from_info, from_subdir, from_file_info.
  destruct (i_subdir x) as [sd|]; [discriminate|].
  destruct (dict_item "last_modified" (i_last_modified x)) as [e1|lm] eqn:E1;
    simpl.
  { intros H. injection H as <-. eapply dict_item_builtin; exact E1. }
  destruct (Strptime.strptime _ _) as [e2|dt] eqn:E2; simpl.
  { intros H. injection H as <-. eapply strptime_builtin; exact E2. }
  destruct (dict_item "name" (i_name x)) as [e3|n] eqn:E3; simpl.
  { intros H. injection H as <-. eapply dict_item_builtin; exact E3. }
  destruct (dict_item "bytes" (i_bytes x)) as [e4|b] eqn:E4; simpl.
  { intros H. injection H as <-. eapply dict_item_builtin; exact E4. }
  destruct (dict_item "content_type" (i_content_type x)) as [e5|ct] eqn:E5; simpl.
  { intros H. injection H as <-. eapply dict_item_builtin; exact E5. }
  discriminate.
Qed.

Lemma map_result_builtin (c : RackspaceContainer) (l : list info) (e : exn) :
  map_result (from_info c) l = inl e -> is_builtin e.
Proof.
  induction l as [|x l IH]; simpl; [discriminate|].
  destruct (from_info c x) as [e1|o] eqn:E1; simpl.
  { intros H. injection H as <-. eapply from_info_builtin; exact E1. }
  destruct (map_result (from_info c) l) as [e2|os]; simpl; [|discriminate].
  intros H. injection H as <-. apply IH. reflexivity.
Qed.

Lemma map_result_length {A B : Type} (f : A -> result B) (l : list A)
  (ys : list B) :
  map_result f l = inr ys -> List.length ys = List.length l.
Proof.
  revert ys. induction l as [|x l IH]; simpl; intros ys.
  - intros H. injection H as <-. reflexivity.
  - destruct (f x) as [e|y]; simpl; [discriminate|].
    destruct (map_result f l) as [e|ys']; simpl; [discriminate|].
    intros H. injection H as <-. simpl. f_equal. apply IH. reflexivity.
Qed.

Lemma map_result_total {A B : Type} (f : A -> result B) (l : list A) :
  Forall (fun x => exists y, f x = inr y) l ->
  exists ys, map_result f l = inr ys.
Proof.
  induction 1 as [|x l [y Hy] _ [ys IH]]; simpl.
  - exists []. reflexivity.
  - rewrite Hy, IH. simpl. exists (y :: ys). reflexivity.
Qed.

(** The translator leaves a built-in exception as it is. *)
Lemma translate_builtin (w : CloudExceptionWrapper) (e : exn) :
  is_builtin e -> translate w e = e.
Proof. intros [b Hb]. unfold translate. rewrite Hb. reflexivity. Qed.


(** ** The listing operation *)

Section GetObjects.

Variable self : RackspaceContainer.
Variables (path : string) (marker : option string) (limit : Z).
Variable log : list vendor_call.

Lemma limit_message :
  ("Object limit must be less than " ++ str_of_int RS_MAX_GET_OBJS_LIMIT)%string
  = "Object limit must be less than 10000".
Proof. reflexivity. Qed.

(** Above the ceiling nothing is sent and [CloudException] is raised. *)
Lemma get_objects_rejected :
  limit > RS_MAX_GET_OBJS_LIMIT ->
  get_objects self path marker limit log
  = (log, raise_ (Cloud CloudException) "Object limit must be less than 10000").
Proof.
  intros H. unfold get_objects, wrap_rs_errors, wrap, get_objects_body.
  rewrite limit_message.
  destruct (Z.gtb_spec limit RS_MAX_GET_OBJS_LIMIT) as [_|Hle]; [|lia].
  reflexivity.
Qed.

(** Up to the ceiling exactly one request is sent, for [limit + 1] entries,
    and the outcome is decided by the answer. *)
Lemma get_objects_accepted :
  limit <= RS_MAX_GET_OBJS_LIMIT ->
  get_objects self path marker limit log
  = ((log ++ [listing_call path marker limit])%list,
     match listing_answer self path marker limit with
     | inl e => inl (translate RackspaceExceptionWrapper e)
     | inr page =>
         map_result (from_info self) (select_infos marker limit page)
     end).
Proof.
  intros H. unfold get_objects, wrap_rs_errors, wrap, get_objects_body.
  destruct (Z.gtb_spec limit RS_MAX_GET_OBJS_LIMIT) as [Hgt|_]; [lia|].
  unfold bind, call, lift, listing_answer, listing_call.
  destruct (list_objects_info _ _ _ _ _) as [e|page]; [reflexivity|].
  destruct (map_result (from_info self) (select_infos marker limit page))
    as [e|objs] eqn:E; [|reflexivity].
  rewrite (translate_builtin _ _ (map_result_builtin _ _ _ E)). reflexivity.
Qed.

(** The page that is turned into objects is part of the vendor's page and
    is no longer than the requested limit. *)
Lemma firstn_incl {A : Type} (k : nat) (l : list A) (x : A) :
  In x (firstn k l) -> In x l.
Proof.
  intros H. rewrite <- (firstn_skipn k l). apply in_or_app. left. exact H.
Qed.

Lemma slice_to_incl {A : Type} (n : Z) (l : list A) (x : A) :
  In x (PyStr.slice_to n l) -> In x l.
Proof.
  unfold PyStr.slice_to. destruct (n <? 0); apply firstn_incl.
Qed.

Lemma slice_to_length {A : Type} (n : Z) (l : list A) :
  0 <= n -> Z.of_nat (List.length (PyStr.slice_to n l)) <= n.
Proof.
  intros H. unfold PyStr.slice_to.
  destruct (Z.ltb_spec n 0) as [Hlt|_]; [lia|].
  rewrite length_firstn. lia.
Qed.

Lemma select_infos_incl (page : list info) (x : info) :
  In x (select_infos marker limit page) -> In x page.
Proof.
  unfold select_infos. destruct page as [|first rest]; [tauto|].
  intros H. apply slice_to_incl in H. apply _collapse_from_incl in H.
  destruct (marker_matches marker first); [right|]; exact H.
Qed.

Lemma select_infos_length (page : list info) :
  0 <= limit ->
  Z.of_nat (List.length (select_infos marker limit page)) <= limit.
Proof.
  intros H. unfold select_infos. destruct page as [|first rest].
  - simpl. lia.
  - apply slice_to_length. exact H.
Qed.

End GetObjects.

(** C3: for every limit above 10000, [get_objects] raises [CloudException]
    and the log of vendor calls is left as it was: the check comes before
    any request is made. *)
Theorem limit_ceiling_rejects
  (self : RackspaceContainer) (path : string) (marker : option string)
  (limit : Z) (log : list vendor_call)
  (Hlimit : limit > 10000) :
  get_objects self path marker limit log
  = (log, inl (mk_exn (Cloud CloudException)
                 "Object limit must be less than 10000")).
Proof. apply get_objects_rejected. exact Hlimit. Qed.

Lemma limit_ceiling_rejects_witness :
  10001 > 10000
  /\ get_objects (container_of_page scenario_page) "photos" None 10001 []
     = ([], inl (mk_exn (Cloud CloudException)
                   "Object limit must be less than 10000")).
Proof.
  split; [lia|].
  apply (limit_ceiling_rejects
           (container_of_page scenario_page) "photos" None 10001 []).
  lia.
Defined.

(** C9: the ceiling is checked on the caller's limit, before the
    increment. For every accepted limit exactly one listing request is
    issued and its limit argument is the caller's limit plus one; at
    limit 10000 the request asks for 10001 entries, one more than
    [RS_MAX_GET_OBJS_LIMIT], and the outcome is the one decided by the
    vendor's answer, not the exception of the ceiling check. *)
Theorem limit_checked_before_increment
  (self : RackspaceContainer) (path : string) (marker : option string)
  (limit : Z) (log : list vendor_call)
  (Hlimit : limit <= RS_MAX_GET_OBJS_LIMIT) :
  get_objects self path marker limit log
  = ((log ++ [ListObjectsInfo (limit + 1) SEP (listing_prefix path) marker])%list,
     match list_objects_info (native_container self)
             (limit + 1) SEP (listing_prefix path) marker with
     | inl e => inl (translate RackspaceExceptionWrapper e)
     | inr page => map_result (from_info self) (select_infos marker limit page)
     end)
  /\ fst (get_objects self path marker 10000 log)
     = (log ++ [ListObjectsInfo 10001 SEP (listing_prefix path) marker])%list
  /\ 10001 > RS_MAX_GET_OBJS_LIMIT.
Proof.
  split; [|split].
  - apply get_objects_accepted. exact Hlimit.
  - rewrite get_objects_accepted by (unfold RS_MAX_GET_OBJS_LIMIT; lia).
    reflexivity.
  - unfold RS_MAX_GET_OBJS_LIMIT. lia.
Qed.

Lemma limit_checked_before_increment_witness :
  10000 <= RS_MAX_GET_OBJS_LIMIT
  /\ get_objects (container_of_page [photos_implied]) "" None 10000 []
     = ([ListObjectsInfo 10001 "/" "" None],
        inr [mk_object (container_of_page [photos_implied]) "photos/"
               None None None SUBDIR]).
Proof.
  split; [unfold RS_MAX_GET_OBJS_LIMIT; lia|].
  destruct (limit_checked_before_increment
              (container_of_page [photos_implied]) "" None 10000 [])
    as [H _]; [unfold RS_MAX_GET_OBJS_LIMIT; lia|].
  rewrite H. reflexivity.
Defined.

(** C4: for a valid limit (not negative) the sequence that [get_objects]
    returns is never longer than the requested limit, whatever the vendor
    answers; and the operation does return such a sequence when the limit
    is accepted and every entry of the vendor's page can be turned into an
    object. *)
Theorem page_size_bound
  (self : RackspaceContainer) (path : string) (marker : option string)
  (limit : Z) (log : list vendor_call)
  (Hvalid : 0 <= limit) :
  (forall log' objs,
      get_objects self path marker limit log = (log', inr objs) ->
      Z.of_nat (List.length objs) <= limit)
  /\ (forall page,
        limit <= RS_MAX_GET_OBJS_LIMIT ->
        listing_answer self path marker limit = inr page ->
        Forall (fun x => exists o, from_info self x = inr o) page ->
        exists objs,
          get_objects self path marker limit log
          = ((log ++ [listing_call path marker limit])%list, inr objs)
          /\ Z.of_nat (List.length objs) <= limit).
Proof.
  assert (Hlen : forall page objs,
            map_result (from_info self) (select_infos marker limit page)
            = inr objs ->
            Z.of_nat (List.length objs) <= limit).
  { intros page objs H. rewrite (map_result_length _ _ _ H).
    apply select_infos_length. exact Hvalid. }
  split.
  - intros log' objs H.
    destruct (Z.le_gt_cases limit RS_MAX_GET_OBJS_LIMIT) as [Hle|Hgt].
    + rewrite get_objects_accepted in H by exact Hle.
      destruct (listing_answer self path marker limit) as [e|page];
        [discriminate|].
      injection H as _ H. eapply Hlen. exact H.
    + rewrite get_objects_rejected in H by lia. discriminate.
  - intros page Hle Hanswer Hpage.
    rewrite get_objects_accepted by exact Hle. rewrite Hanswer.
    destruct (map_result_total (from_info self)
                (select_infos marker limit page)) as [objs Hobjs].
    { rewrite Forall_forall in *. intros x Hx. apply Hpage.
      eapply select_infos_incl. exact Hx. }
    exists objs. split; [rewrite Hobjs; reflexivity|].
    eapply Hlen. exact Hobjs.
Qed.

Lemma page_size_bound_witness :
  0 <= 1
  /\ exists objs,
       get_objects (container_of_page [docs_file; photos_dir; photos_implied])
         "" None 1 []
       = ([ListObjectsInfo 2 "/" "" None], inr objs)
       /\ Z.of_nat (List.length objs) <= 1.
Proof.
  split; [lia|].
  destruct (page_size_bound
              (container_of_page [docs_file; photos_dir; photos_implied])
              "" None 1 []) as [_ H]; [lia|].
  apply (H [docs_file; photos_dir; photos_implied]).
  - unfold RS_MAX_GET_OBJS_LIMIT. lia.
  - reflexivity.
  - repeat constructor; eexists; vm_compute; reflexivity.
Defined.

(** ** Prefix and marker *)

Lemma listing_prefix_nonempty (path : string) :
  path <> "" -> listing_prefix path = (path ++ SEP)%string.
Proof.
  intros H. unfold listing_prefix. rewrite (truthy_nonempty _ H). reflexivity.
Qed.

Lemma append_nonempty (p q : string) : q <> "" -> (p ++ q)%string <> "".
Proof. destruct p; simpl; [tauto | discriminate]. Qed.

(** C8, as stated, fails on a prefix that already ends with the separator:
    for the path [foo/] the listing request carries the prefix [foo//],
    which ends with two separators, not with exactly one. *)
Lemma prefix_with_separator_gets_second :
  get_objects (container_of_page []) "foo/" None 10 []
  = ([ListObjectsInfo 11 "/" "foo//" None], inr [])
  /\ trailing_separators "foo/" = 1%nat
  /\ trailing_separators (listing_prefix "foo/") = 2%nat.
Proof. repeat split; reflexivity. Qed.

(** C8 (amended): for every non-empty path the prefix passed to the vendor
    listing call is the path followed by one path separator, so it ends
    with the separator; an empty path is passed as the empty prefix; the
    separator is appended without looking at the end of the path, so a
    path that already ends with the separator is passed with one more. *)
Theorem prefix_passed_to_vendor
  (self : RackspaceContainer) (path : string) (marker : option string)
  (limit : Z) (log : list vendor_call)
  (Hlimit : limit <= RS_MAX_GET_OBJS_LIMIT) :
  fst (get_objects self path marker limit log)
  = (log ++ [ListObjectsInfo (limit + 1) SEP (listing_prefix path) marker])%list
  /\ (path <> "" -> listing_prefix path = (path ++ SEP)%string)
  /\ (path = "" -> listing_prefix path = "")
  /\ (forall p : string,
        listing_prefix (p ++ SEP) = ((p ++ SEP) ++ SEP)%string).
Proof.
  repeat split.
  - rewrite get_objects_accepted by exact Hlimit. reflexivity.
  - apply listing_prefix_nonempty.
  - intros ->. reflexivity.
  - intros p. apply listing_prefix_nonempty. apply append_nonempty.
    discriminate.
Qed.

Lemma prefix_passed_to_vendor_witness :
  10 <= RS_MAX_GET_OBJS_LIMIT
  /\ fst (get_objects (container_of_page []) "photos" (Some "photos/a") 10 [])
     = [ListObjectsInfo 11 "/" "photos/" (Some "photos/a")]
  /\ fst (get_objects (container_of_page []) "" None 10 [])
     = [ListObjectsInfo 11 "/" "" None].
Proof.
  split; [unfold RS_MAX_GET_OBJS_LIMIT; lia|]. split.
  - apply (prefix_passed_to_vendor
             (container_of_page []) "photos" (Some "photos/a") 10 []).
    unfold RS_MAX_GET_OBJS_LIMIT; lia.
  - apply (prefix_passed_to_vendor (container_of_page []) "" None 10 []).
    unfold RS_MAX_GET_OBJS_LIMIT; lia.
Defined.

(** C5, as stated, fails for the empty marker: with [marker = ""] and a
    page whose first entry is the implied subdirectory ["/"], the trimmed
    name of that entry equals the marker, and the entry is returned. *)
Lemma empty_marker_entry_returned :
  is_pseudo (subdir_info "/") = true
  /\ trimmed_subdir (subdir_info "/") = ""
  /\ get_objects (container_of_page [subdir_info "/"]) "" (Some "") 10 []
     = ([ListObjectsInfo 11 "/" "" (Some "")],
        inr [mk_object (container_of_page [subdir_info "/"]) "/"
               None None None SUBDIR]).
Proof. repeat split; reflexivity. Qed.

(** C5 (amended): the vendor listing is requested with [limit + 1]
    entries, and whenever a non-empty marker is provided and the first raw
    result is a pseudo-directory entry whose name trimmed of path
    separators equals the marker, that first entry is excluded: the
    returned sequence is the one built from the rest of the page. An empty
    marker is treated like no marker: it is sent to the vendor as it is,
    but the marker check never holds for it, so the page is selected
    exactly as for [marker = None] and its first entry stays, even when
    the trimmed name of that entry is the empty string. *)
Theorem marker_entry_excluded
  (self : RackspaceContainer) (path m : string) (limit : Z)
  (log : list vendor_call) (first : info) (rest : list info)
  (Hlimit : limit <= RS_MAX_GET_OBJS_LIMIT)
  (Hm : m <> "")
  (Hanswer : list_objects_info (native_container self)
               (limit + 1) SEP (listing_prefix path) (Some m)
             = inr (first :: rest))
  (Hpseudo : is_pseudo first = true)
  (Htrim : trimmed_subdir first = m) :
  get_objects self path (Some m) limit log
  = ((log ++ [ListObjectsInfo (limit + 1) SEP (listing_prefix path) (Some m)])%list,
     map_result (from_info self) (PyStr.slice_to limit (_collapse rest)))
  /\ (forall x : info,
        marker_matches (Some "") x = false
        /\ marker_matches (Some "") x = marker_matches None x)
  /\ (forall page : list info,
        select_infos (Some "") limit page = select_infos None limit page)
  /\ (forall (x : info) (page : list info),
        list_objects_info (native_container self)
          (limit + 1) SEP (listing_prefix path) (Some "")
        = inr (x :: page) ->
        get_objects self path (Some "") limit log
        = ((log ++ [ListObjectsInfo (limit + 1) SEP (listing_prefix path)
                      (Some "")])%list,
           map_result (from_info self)
             (PyStr.slice_to limit (_collapse (x :: page))))).
Proof.
  split; [|split; [|split]].
  - rewrite get_objects_accepted by exact Hlimit.
    unfold listing_answer, listing_call. rewrite Hanswer.
    unfold select_infos, marker_matches.
    rewrite Htrim, (truthy_nonempty _ Hm), String.eqb_refl. reflexivity.
  - intros x. split; reflexivity.
  - intros page. destruct page as [|x page]; reflexivity.
  - intros x page Hempty.
    rewrite get_objects_accepted by exact Hlimit.
    unfold listing_answer, listing_call. rewrite Hempty. reflexivity.
Qed.

Lemma marker_entry_excluded_witness :
  list_objects_info
    (native_container (container_of_page [photos_implied; docs_file]))
    3 SEP (listing_prefix "") (Some "photos")
  = inr [photos_implied; docs_file]
  /\ trimmed_subdir photos_implied = "photos"
  /\ (exists objs,
        get_objects (container_of_page [photos_implied; docs_file])
          "" (Some "photos") 2 []
        = ([ListObjectsInfo 3 "/" "" (Some "photos")], inr objs)
        /\ names_and_types objs = [("docs", FILE)])
  /\ (exists objs,
        get_objects (container_of_page [photos_implied; docs_file])
          "" (Some "") 2 []
        = ([ListObjectsInfo 3 "/" "" (Some "")], inr objs)
        /\ names_and_types objs = [("photos/", SUBDIR); ("docs", FILE)]).
Proof.
  destruct (marker_entry_excluded
              (container_of_page [photos_implied; docs_file])
              "" "photos" 2 [] photos_implied [docs_file])
    as [Hskip [_ [_ Hempty]]]; try reflexivity; try discriminate.
  split; [reflexivity|]. split; [reflexivity|]. split.
  - eexists. split; [rewrite Hskip; reflexivity | reflexivity].
  - eexists. split.
    + rewrite (Hempty photos_implied [docs_file] eq_refl). reflexivity.
    + reflexivity.
Defined.

(** ** The worked scenario *)

(** C2, as stated, fails: in the raw page of the scenario the implied
    subdirectory [a/] comes before the dummy directory object [a], so no
    name is tracked yet when it is read and it is yielded; the truncation
    to two entries then removes [b.txt]. *)
Lemma scenario_keeps_implied_entry :
  exists objs,
    get_objects (container_of_page scenario_page) "" None 2 []
    = ([ListObjectsInfo 3 "/" "" None], inr objs)
    /\ names_and_types objs = [("a/", SUBDIR); ("a", SUBDIR)]
    /\ names_and_types objs <> [("a", SUBDIR); ("b.txt", FILE)].
Proof.
  eexists. split; [reflexivity|]. split; [reflexivity|]. discriminate.
Qed.

(** C2 (amended): given the raw vendor page of the scenario with limit 2
    and no marker, the result after collapsing and truncation is the
    two-element sequence made of the implied subdirectory [a/] (type
    SUBDIR) and the dummy directory object [a] (type SUBDIR): the implied
    entry precedes the real one and is kept, and [b.txt] is cut off. *)
Theorem scenario_result
  (self : RackspaceContainer) (log : list vendor_call)
  (Hpage : list_objects_info (native_container self) 3 "/" "" None
           = inr scenario_page) :
  get_objects self "" None 2 log
  = ((log ++ [ListObjectsInfo 3 "/" "" None])%list,
     inr [ mk_object self "a/" None None None SUBDIR;
           mk_object self "a" (Some 0) (Some "application/directory")
             (Some new_year_2020) SUBDIR ]).
Proof.
  rewrite get_objects_accepted by (unfold RS_MAX_GET_OBJS_LIMIT; lia).
  unfold listing_answer, listing_call.
  change (2 + 1) with 3. change (listing_prefix "") with "". change SEP with "/".
  rewrite Hpage. vm_compute. reflexivity.
Qed.

Lemma scenario_result_witness :
  list_objects_info (native_container (container_of_page scenario_page))
    3 "/" "" None = inr scenario_page
  /\ get_objects (container_of_page scenario_page) "" None 2 []
     = ([ListObjectsInfo 3 "/" "" None],
        inr [ mk_object (container_of_page scenario_page) "a/"
                None None None SUBDIR;
              mk_object (container_of_page scenario_page) "a" (Some 0)
                (Some "application/directory") (Some new_year_2020) SUBDIR ]).
Proof.
  split; [reflexivity|].
  apply (scenario_result (container_of_page scenario_page) []).
  reflexivity.
Defined.

(** ** Timestamps *)



Example strptime_fraction :
  Strptime.strptime "2010-04-15T01:52:13.919070" "%Y-%m-%dT%H:%M:%S"
  = raise_ (Builtin ValueError) "unconverted data remains".
Proof. vm_compute. reflexivity. Qed.

Example strptime_bad_day :
  Strptime.strptime "2010-02-30T01:52:13" "%Y-%m-%dT%H:%M:%S"
  = raise_ (Builtin ValueError) "value out of range".
Proof. vm_compute. reflexivity. Qed.




(** ** Error translation *)

Section Translation.

Context {A : Type}.
Variable operation : M A.
Variables log log' : list vendor_call.
Variable msg : string.

(** What a decorated operation raises when its body raises [e]. *)
Lemma wrap_rs_errors_raises (e : exn) :
  operation log = (log', inl e) ->
  wrap_rs_errors operation log
  = (log', inl (translate RackspaceExceptionWrapper e)).
Proof.
  intros H. unfold wrap_rs_errors, wrap. rewrite H. reflexivity.
Qed.

Lemma wrap_rs_errors_returns (a : A) :
  operation log = (log', inr a) ->
  wrap_rs_errors operation log = (log', inr a).
Proof.
  intros H. unfold wrap_rs_errors, wrap. rewrite H. reflexivity.
Qed.

End Translation.

(** C6: a decorated operation re-raises the vendor exception for a missing
    container as [NoContainerException] and the one for a missing object
    as [NoObjectException], as the table [translations] says, and any other
    vendor exception as a generic [CloudException]; the message is the
    original one. In particular [get_object] on a path that the vendor
    does not know fails with [NoObjectException], and the connection's
    [_get_container] on a name that the vendor does not know fails with
    [NoContainerException]. *)
Theorem vendor_errors_translated :
  (forall (A : Type) (operation : M A) (log log' : list vendor_call)
          (v : vendor_class) (msg : string),
      operation log = (log', raise_ (Vendor v) msg) ->
      wrap_rs_errors operation log
      = (log', raise_ (Cloud match v with
                             | NoSuchContainer => NoContainerException
                             | NoSuchObject => NoObjectException
                             | OtherVendorError _ => CloudException
                             end) msg))
  /\ (forall (self : RackspaceContainer) (path : string)
             (log : list vendor_call) (msg : string),
        get_object_native (native_container self) path
        = raise_ (Vendor NoSuchObject) msg ->
        get_object self path log
        = ((log ++ [GetObject path])%list,
           raise_ (Cloud NoObjectException) msg))
  /\ (forall (self : RackspaceConnection) (cname : string)
             (log : list vendor_call) (msg : string),
        get_container_native (native_conn self) cname
        = raise_ (Vendor NoSuchContainer) msg ->
        Connection._get_container self cname log
        = ((log ++ [GetContainer cname])%list,
           raise_ (Cloud NoContainerException) msg)).
Proof.
  split; [|split].
  - intros A operation log log' v msg H.
    rewrite (wrap_rs_errors_raises _ _ _ _ H).
    destruct v; reflexivity.
  - intros self path log msg H. unfold get_object.
    apply (wrap_rs_errors_raises _ _ _ (mk_exn (Vendor NoSuchObject) msg)).
    unfold bind, call. rewrite H. reflexivity.
  - intros self cname log msg H. unfold Connection._get_container.
    apply (wrap_rs_errors_raises _ _ _ (mk_exn (Vendor NoSuchContainer) msg)).
    unfold bind, call. rewrite H. reflexivity.
Qed.

Lemma vendor_errors_translated_witness :
  get_object (container_of_page scenario_page) "missing/path" []
  = ([GetObject "missing/path"],
     raise_ (Cloud NoObjectException) "missing/path")
  /\ Connection._get_container empty_account "missing" []
     = ([GetContainer "missing"],
        raise_ (Cloud NoContainerException) "missing")
  /\ wrap_rs_errors
       (call (GetObject "a")
          (raise_ (Vendor (OtherVendorError "ResponseError")) "503"
           : result NativeObject)) []
     = ([GetObject "a"], raise_ (Cloud CloudException) "503").
Proof.
  destruct vendor_errors_translated as [Hany [Hobj Hcont]].
  split; [|split].
  - apply (Hobj (container_of_page scenario_page) "missing/path" []).
    reflexivity.
  - apply (Hcont empty_account "missing" []). reflexivity.
  - apply (Hany NativeObject _ [] [GetObject "a"]
             (OtherVendorError "ResponseError") "503").
    reflexivity.
Defined.

(** * Further properties *)

(** ** What the collapsing pass keeps *)

(** An entry that is not yielded is a pseudo-directory entry. *)
Lemma not_yielded_pseudo (name : option string) (x : info) :
  yields name (trimmed_subdir x) = false -> is_pseudo x = true.
Proof.
  intros H. unfold is_pseudo. destruct (i_subdir x) eqn:E; [reflexivity|].
  rewrite (yields_not_pseudo name x E) in H. discriminate.
Qed.

Lemma _collapse_from_keeps_real (name : option string) (infos : list info) :
  filter (fun x => negb (is_pseudo x)) (_collapse_from name infos)
  = filter (fun x => negb (is_pseudo x)) infos.
Proof.
  revert name. induction infos as [|x l IH]; intros name; [reflexivity|].
  simpl _collapse_from.
  destruct (yields (next_name name x) (trimmed_subdir x)) eqn:E.
  - simpl. rewrite IH. reflexivity.
  - simpl. rewrite (not_yielded_pseudo _ _ E). simpl. apply IH.
Qed.

(** X1: the collapsing pass never drops an entry that has no ['subdir']
    key: the stored objects of a page all survive, in their order. *)
Theorem collapse_keeps_real_entries (infos : list info) :
  filter (fun x => negb (is_pseudo x)) (_collapse infos)
  = filter (fun x => negb (is_pseudo x)) infos.
Proof. apply _collapse_from_keeps_real. Qed.

Lemma subseq_refl {A : Type} (l : list A) : subseq l l.
Proof. induction l; constructor; assumption. Qed.

Lemma subseq_trans {A : Type} (l1 l2 l3 : list A) :
  subseq l1 l2 -> subseq l2 l3 -> subseq l1 l3.
Proof.
  intros H12 H23. revert l1 H12.
  induction H23 as [|x l2 l3 _ IH|x l2 l3 _ IH]; intros l1 H12.
  - exact H12.
  - constructor. apply IH. exact H12.
  - inversion H12; subst.
    + constructor. apply IH. assumption.
    + apply subseq_keep. apply IH. assumption.
Qed.

Lemma subseq_firstn {A : Type} (k : nat) (l : list A) : subseq (firstn k l) l.
Proof.
  revert k. induction l as [|x l IH]; intros [|k]; simpl.
  - constructor.
  - constructor.
  - constructor. apply (IH 0%nat).
  - apply subseq_keep. apply IH.
Qed.

Lemma subseq_slice_to {A : Type} (n : Z) (l : list A) :
  subseq (PyStr.slice_to n l) l.
Proof. unfold PyStr.slice_to. destruct (n <? 0); apply subseq_firstn. Qed.

Lemma subseq_collapse_from (name : option string) (l : list info) :
  subseq (_collapse_from name l) l.
Proof.
  revert name. induction l as [|x l IH]; intros name; simpl.
  - constructor.
  - destruct (yields (next_name name x) (trimmed_subdir x));
      constructor; apply IH.
Qed.

Lemma subseq_skip_marker (marker : option string) (page : list info) :
  subseq (skip_marker marker page) page.
Proof.
  destruct page as [|first rest]; simpl; [constructor|].
  destruct (marker_matches marker first).
  - constructor. apply subseq_refl.
  - apply subseq_refl.
Qed.

Lemma slice_to_nil {A : Type} (n : Z) : PyStr.slice_to n (@nil A) = [].
Proof.
  unfold PyStr.slice_to. destruct (n <? 0); apply firstn_nil.
Qed.

(** The three steps of [get_objects] on the vendor's page, one after the
    other. *)
Lemma select_infos_steps (marker : option string) (limit : Z)
  (page : list info) :
  select_infos marker limit page
  = PyStr.slice_to limit (_collapse (skip_marker marker page)).
Proof.
  destruct page as [|first rest]; simpl.
  - symmetry. apply slice_to_nil.
  - destruct (marker_matches marker first); reflexivity.
Qed.

Lemma subseq_select_infos (marker : option string) (limit : Z)
  (page : list info) :
  subseq (select_infos marker limit page) page.
Proof.
  rewrite select_infos_steps.
  eapply subseq_trans; [apply subseq_slice_to|].
  eapply subseq_trans; [apply subseq_collapse_from|].
  apply subseq_skip_marker.
Qed.

(** ** A collapsed page has no duplicate left *)

Lemma _collapse_from_idempotent (name : option string) (l : list info) :
  vendor_shaped l ->
  _collapse_from name (_collapse_from name l) = _collapse_from name l.
Proof.
  intros H. revert name.
  induction H as [|x l Hx _ IH]; intros name; [reflexivity|].
  simpl _collapse_from at 2 3.
  destruct (yields (next_name name x) (trimmed_subdir x)) eqn:E.
  - simpl. rewrite E. rewrite IH. reflexivity.
  - assert (Hn : next_name name x = name).
    { unfold next_name. rewrite (Hx (not_yielded_pseudo _ _ E)). reflexivity. }
    rewrite Hn. apply IH.
Qed.

(** X2: on a page as the vendor shapes it (no pseudo-directory entry
    carries a name) collapsing is idempotent, and no entry of the collapsed
    page is a duplicate by the dropping rule: what is left needs no second
    pass. *)
Theorem collapse_leaves_no_duplicate (page : list info)
  (Hshape : vendor_shaped page) :
  _collapse (_collapse page) = _collapse page
  /\ (forall (pre : list info) (y : info) (post : list info),
        _collapse page = (pre ++ y :: post)%list -> dropped pre y = false).
Proof.
  assert (Hidem : _collapse (_collapse page) = _collapse page)
    by (apply _collapse_from_idempotent; exact Hshape).
  split; [exact Hidem|].
  intros pre y post Hsplit.
  destruct (dropped pre y) eqn:Hd; [|reflexivity]. exfalso.
  rewrite Hsplit in Hidem. rewrite _collapse_decompose, Hd in Hidem.
  apply (f_equal (@List.length info)) in Hidem.
  rewrite !length_app in Hidem. simpl in Hidem.
  pose proof (_collapse_from_length None pre) as H1.
  pose proof (_collapse_from_length (last_name (pre ++ [y])) post) as H2.
  unfold _collapse in Hidem. lia.
Qed.

Lemma collapse_leaves_no_duplicate_witness :
  vendor_shaped [docs_file; photos_dir; photos_implied; subdir_info "zoo/"]
  /\ _collapse (_collapse [docs_file; photos_dir; photos_implied;
                           subdir_info "zoo/"])
     = [docs_file; photos_dir; subdir_info "zoo/"].
Proof.
  assert (H : vendor_shaped
                [docs_file; photos_dir; photos_implied; subdir_info "zoo/"]).
  { repeat constructor; discriminate. }
  split; [exact H|].
  rewrite (proj1 (collapse_leaves_no_duplicate _ H)). reflexivity.
Defined.

(** X3: a page without named entries, and a page without
    pseudo-directory entries, go through the marker check and the
    collapsing pass unchanged apart from a first entry that matches the
    marker; for a page of stored objects only, what is converted is the
    page cut at the limit. *)
Theorem collapse_identity_on_uniform_pages
  (marker : option string) (limit : Z) (page : list info) :
  (Forall (fun x => i_name x = None) page -> _collapse page = page)
  /\ (Forall (fun x => is_pseudo x = false) page ->
      _collapse page = page
      /\ select_infos marker limit page = PyStr.slice_to limit page).
Proof.
  split.
  - intros H. unfold _collapse.
    rewrite <- (app_nil_r page) at 1.
    rewrite (_collapse_from_nameless page [] H). simpl. apply app_nil_r.
  - intros H.
    assert (Hc : forall name, _collapse_from name page = page).
    { induction H as [|x l Hx _ IH]; intros name; [reflexivity|].
      simpl. unfold is_pseudo in Hx.
      destruct (i_subdir x) eqn:E; [discriminate|].
      rewrite (yields_not_pseudo _ _ E), IH. reflexivity. }
    split; [apply Hc|].
    rewrite select_infos_steps.
    destruct H as [|x l Hx Hl]; [reflexivity|].
    assert (Hm : marker_matches marker x = false).
    { unfold marker_matches, trimmed_subdir, is_pseudo in *.
      destruct (i_subdir x); [discriminate|]. simpl.
      destruct marker as [[|c m]|]; reflexivity. }
    simpl skip_marker. rewrite Hm. unfold _collapse. rewrite Hc. reflexivity.
Qed.

Lemma collapse_identity_on_uniform_pages_witness :
  _collapse [photos_implied; subdir_info "photos/"] =
    [photos_implied; subdir_info "photos/"]
  /\ select_infos (Some "docs") 1 [docs_file; photos_dir] = [docs_file].
Proof.
  destruct (collapse_identity_on_uniform_pages (Some "docs") 1
              [photos_implied; subdir_info "photos/"]) as [H1 _].
  destruct (collapse_identity_on_uniform_pages (Some "docs") 1
              [docs_file; photos_dir]) as [_ H2].
  split.
  - apply H1. repeat constructor.
  - rewrite (proj2 (H2 ltac:(repeat constructor))). reflexivity.
Defined.

(** ** The returned page *)

Lemma map_result_Forall2 {A B : Type} (f : A -> result B) (l : list A)
  (ys : list B) :
  map_result f l = inr ys -> Forall2 (fun x y => f x = inr y) l ys.
Proof.
  revert ys. induction l as [|x l IH]; simpl; intros ys.
  - intros H. injection H as <-. constructor.
  - destruct (f x) as [e|y] eqn:E; simpl; [discriminate|].
    destruct (map_result f l) as [e|ys']; simpl; [discriminate|].
    intros H. injection H as <-. constructor; [exact E | apply IH; reflexivity].
Qed.

Lemma map_result_first_error {A B : Type} (f : A -> result B)
  (good : list A) (bad : A) (rest : list A) (e : exn) :
  Forall (fun x => exists y, f x = inr y) good ->
  f bad = inl e ->
  map_result f (good ++ bad :: rest) = inl e.
Proof.
  intros Hgood Hbad. induction Hgood as [|x l [y Hy] _ IH]; simpl.
  - rewrite Hbad. reflexivity.
  - rewrite Hy, IH. reflexivity.
Qed.

(** X4: when [get_objects] returns, the vendor has answered with a page,
    and the returned objects are, one for one and in the same order, the
    conversions of entries taken from that page in page order: nothing is
    invented, duplicated or reordered. *)
Theorem returned_objects_follow_page
  (self : RackspaceContainer) (path : string) (marker : option string)
  (limit : Z) (log log' : list vendor_call) (objs : list RackspaceObject)
  (Hret : get_objects self path marker limit log = (log', inr objs)) :
  exists page infos,
    listing_answer self path marker limit = inr page
    /\ subseq infos page
    /\ Forall2 (fun x o => from_info self x = inr o) infos objs.
Proof.
  destruct (Z.le_gt_cases limit RS_MAX_GET_OBJS_LIMIT) as [Hle|Hgt].
  - rewrite get_objects_accepted in Hret by exact Hle.
    destruct (listing_answer self path marker limit) as [e|page];
      [discriminate|].
    injection Hret as _ Hret.
    exists page, (select_infos marker limit page).
    split; [reflexivity|]. split.
    + apply subseq_select_infos.
    + apply map_result_Forall2. exact Hret.
  - rewrite get_objects_rejected in Hret by lia. discriminate.
Qed.

Lemma returned_objects_follow_page_witness :
  exists page infos,
    listing_answer (container_of_page scenario_page) "" None 2 = inr page
    /\ subseq infos page
    /\ Forall2 (fun x o => from_info (container_of_page scenario_page) x = inr o)
         infos
         [ mk_object (container_of_page scenario_page) "a/"
             None None None SUBDIR;
           mk_object (container_of_page scenario_page) "a" (Some 0)
             (Some "application/directory") (Some new_year_2020) SUBDIR ].
Proof.
  apply (returned_objects_follow_page
           (container_of_page scenario_page) "" None 2 []
           [ListObjectsInfo 3 "/" "" None]).
  reflexivity.
Defined.

Lemma slice_to_length_exact {A : Type} (n : Z) (l : list A) :
  0 <= n ->
  Z.of_nat (List.length (PyStr.slice_to n l))
  = Z.min n (Z.of_nat (List.length l)).
Proof.
  intros H. unfold PyStr.slice_to.
  destruct (Z.ltb_spec n 0) as [Hlt|_]; [lia|].
  rewrite length_firstn. lia.
Qed.

(** X5: for a limit that is not negative the returned page is full whenever
    it can be: its length is the smaller of the limit and the number of
    entries left once the marker check and the collapsing pass are done. *)
Theorem returned_page_length
  (self : RackspaceContainer) (path : string) (marker : option string)
  (limit : Z) (log log' : list vendor_call) (page : list info)
  (objs : list RackspaceObject)
  (Hvalid : 0 <= limit)
  (Hpage : listing_answer self path marker limit = inr page)
  (Hret : get_objects self path marker limit log = (log', inr objs)) :
  Z.of_nat (List.length objs)
  = Z.min limit
      (Z.of_nat (List.length (_collapse (skip_marker marker page)))).
Proof.
  destruct (Z.le_gt_cases limit RS_MAX_GET_OBJS_LIMIT) as [Hle|Hgt].
  - rewrite get_objects_accepted in Hret by exact Hle.
    rewrite Hpage in Hret. injection Hret as _ Hret.
    rewrite (map_result_length _ _ _ Hret), select_infos_steps.
    apply slice_to_length_exact. exact Hvalid.
  - rewrite get_objects_rejected in Hret by lia. discriminate.
Qed.

Lemma returned_page_length_witness :
  0 <= 2
  /\ Z.of_nat (List.length
       [ mk_object (container_of_page scenario_page) "a/"
           None None None SUBDIR;
         mk_object (container_of_page scenario_page) "a" (Some 0)
           (Some "application/directory") (Some new_year_2020) SUBDIR ])
     = Z.min 2 (Z.of_nat (List.length
                            (_collapse (skip_marker None scenario_page)))).
Proof.
  split; [lia|].
  apply (returned_page_length
           (container_of_page scenario_page) "" None 2 []
           [ListObjectsInfo 3 "/" "" None] scenario_page).
  - lia.
  - reflexivity.
  - reflexivity.
Defined.

(** X6: with limit 0 the vendor is still asked, for one entry, and whatever
    page it answers with the result is the empty sequence: no entry is
    converted, so a malformed entry cannot make the call fail. *)
Theorem zero_limit_returns_nothing
  (self : RackspaceContainer) (path : string) (marker : option string)
  (log : list vendor_call) :
  get_objects self path marker 0 log
  = ((log ++ [ListObjectsInfo 1 SEP (listing_prefix path) marker])%list,
     match list_objects_info (native_container self)
             1 SEP (listing_prefix path) marker with
     | inl e => inl (translate RackspaceExceptionWrapper e)
     | inr _ => inr []
     end).
Proof.
  rewrite get_objects_accepted by (unfold RS_MAX_GET_OBJS_LIMIT; lia).
  unfold listing_call, listing_answer. change (0 + 1) with 1.
  destruct (list_objects_info _ _ _ _ _) as [e|page]; [reflexivity|].
  rewrite select_infos_steps. unfold PyStr.slice_to. simpl. reflexivity.
Qed.

(** X7: a negative limit is not rejected: the vendor is asked for
    [limit + 1] entries, and the slice [[:limit]] then counts from the end,
    so the result is the collapsed page without its last [-limit] entries. *)
Theorem negative_limit_counts_from_end
  (self : RackspaceContainer) (path : string) (marker : option string)
  (limit : Z) (log : list vendor_call)
  (Hneg : limit < 0) :
  get_objects self path marker limit log
  = ((log ++ [ListObjectsInfo (limit + 1) SEP (listing_prefix path) marker])%list,
     match list_objects_info (native_container self)
             (limit + 1) SEP (listing_prefix path) marker with
     | inl e => inl (translate RackspaceExceptionWrapper e)
     | inr page =>
         let kept := _collapse (skip_marker marker page) in
         map_result (from_info self)
           (firstn (List.length kept - Z.to_nat (- limit)) kept)
     end).
Proof.
  rewrite get_objects_accepted by (unfold RS_MAX_GET_OBJS_LIMIT; lia).
  unfold listing_call, listing_answer.
  destruct (list_objects_info _ _ _ _ _) as [e|page]; [reflexivity|].
  rewrite select_infos_steps. unfold PyStr.slice_to.
  destruct (Z.ltb_spec limit 0) as [_|Hge]; [|lia].
  cbv zeta. do 3 f_equal. lia.
Qed.

Lemma negative_limit_counts_from_end_witness :
  -1 < 0
  /\ exists objs,
       get_objects (container_of_page scenario_page) "" None (-1) []
       = ([ListObjectsInfo 0 "/" "" None], inr objs)
       /\ names_and_types objs = [("a/", SUBDIR); ("a", SUBDIR)].
Proof.
  split; [lia|]. eexists. split.
  - rewrite (negative_limit_counts_from_end
               (container_of_page scenario_page) "" None (-1) []) by lia.
    reflexivity.
  - reflexivity.
Defined.

(** X8: the selected entries are converted in order and the first one that
    cannot be converted decides the outcome: its exception, a [KeyError] or
    a [ValueError], leaves [get_objects] as it is, after the one vendor
    call; no partial page is returned. *)
Theorem first_bad_entry_fails_the_page
  (self : RackspaceContainer) (path : string) (marker : option string)
  (limit : Z) (log : list vendor_call) (page good rest : list info)
  (bad : info) (e : exn)
  (Hlimit : limit <= RS_MAX_GET_OBJS_LIMIT)
  (Hpage : listing_answer self path marker limit = inr page)
  (Hsel : select_infos marker limit page = (good ++ bad :: rest)%list)
  (Hgood : Forall (fun x => exists o, from_info self x = inr o) good)
  (Hbad : from_info self bad = inl e) :
  get_objects self path marker limit log
  = ((log ++ [listing_call path marker limit])%list, inl e)
  /\ is_builtin e.
Proof.
  split.
  - rewrite get_objects_accepted by exact Hlimit.
    rewrite Hpage, Hsel.
    rewrite (map_result_first_error _ _ _ _ _ Hgood Hbad). reflexivity.
  - eapply from_info_builtin. exact Hbad.
Qed.

Lemma first_bad_entry_fails_the_page_witness :
  get_objects (container_of_page [docs_file; broken_dir; photos_dir])
    "" None 2 []
  = ([ListObjectsInfo 3 "/" "" None],
     raise_ (Builtin KeyError) "last_modified")
  /\ get_objects (container_of_page [docs_file; photos_dir; broken_dir])
       "" None 2 []
     = ([ListObjectsInfo 3 "/" "" None],
        inr [ mk_object (container_of_page [docs_file; photos_dir; broken_dir])
                "docs" (Some 12) (Some "text/plain")
                (Some new_year_2020) FILE;
              mk_object (container_of_page [docs_file; photos_dir; broken_dir])
                "photos" (Some 0) (Some "application/directory")
                (Some new_year_2020) SUBDIR ]).
Proof.
  split; [|reflexivity].
  apply (first_bad_entry_fails_the_page
           (container_of_page [docs_file; broken_dir; photos_dir])
           "" None 2 [] [docs_file; broken_dir; photos_dir]
           [docs_file] [] broken_dir).
  - unfold RS_MAX_GET_OBJS_LIMIT; lia.
  - reflexivity.
  - reflexivity.
  - repeat constructor. eexists. reflexivity.
  - reflexivity.
Defined.

(** ** A marker that carries a separator *)

Lemma append_single_not_empty (t : string) (c : ascii) :
  (t ++ String c "")%string <> "".
Proof. destruct t; discriminate. Qed.

(** What [rstrip] returns does not end with a stripped character. *)
Lemma rstrip_end (chars : string) (c : ascii) (s t : string) :
  PyStr.mem c chars = true ->
  PyStr.rstrip chars s <> (t ++ String c "")%string.
Proof.
  intros Hc. revert t. induction s as [|a s IH]; intros t; simpl.
  - intros H. symmetry in H. exact (append_single_not_empty _ _ H).
  - destruct (PyStr.rstrip chars s) as [|b r] eqn:E.
    + destruct (PyStr.mem a chars) eqn:Ha.
      * intros H. symmetry in H. exact (append_single_not_empty _ _ H).
      * destruct t as [|a' t']; simpl; intros H.
        -- injection H as ->. congruence.
        -- injection H as _ H. exact (append_single_not_empty _ _ (eq_sym H)).
    + destruct t as [|a' t']; simpl; intros H.
      * discriminate.
      * injection H as _ H. exact (IH t' H).
Qed.

(** What [lstrip] returns does not start with a stripped character, and is
    the end of its argument. *)
Lemma lstrip_start (chars : string) (c : ascii) (s t : string) :
  PyStr.mem c chars = true -> PyStr.lstrip chars s <> String c t.
Proof.
  intros Hc. induction s as [|a s IH]; simpl; [discriminate|].
  destruct (PyStr.mem a chars) eqn:Ha; [exact IH|].
  intros H. injection H as -> _. congruence.
Qed.

Lemma lstrip_suffix (chars s : string) :
  exists p, s = (p ++ PyStr.lstrip chars s)%string.
Proof.
  induction s as [|a s [p IH]]; simpl.
  - exists "". reflexivity.
  - destruct (PyStr.mem a chars).
    + exists (String a p). simpl. rewrite <- IH. reflexivity.
    + exists "". reflexivity.
Qed.

Lemma append_assoc (a b c : string) :
  ((a ++ b) ++ c)%string = (a ++ (b ++ c))%string.
Proof. induction a; simpl; [reflexivity | rewrite IHa; reflexivity]. Qed.

(** A trimmed name neither starts nor ends with the separator. *)
Lemma strip_no_separator (s t : string) :
  PyStr.strip SEP s <> (t ++ SEP)%string
  /\ PyStr.strip SEP s <> (SEP ++ t)%string.
Proof.
  unfold PyStr.strip. split.
  - intros H.
    destruct (lstrip_suffix SEP (PyStr.rstrip SEP s)) as [p Hp].
    rewrite H, <- append_assoc in Hp.
    exact (rstrip_end SEP "/" s (p ++ t) eq_refl Hp).
  - apply (lstrip_start SEP "/"). reflexivity.
Qed.

(** X9: a marker that ends or starts with the path separator, such as the
    ['subdir'] value of an implied entry taken as it is, never matches the
    first entry, whose name is compared after trimming: with such a marker
    the first entry of the page is never removed by the marker check. *)
Theorem marker_with_separator_never_matches
  (self : RackspaceContainer) (path m : string) (limit : Z)
  (log : list vendor_call) (page : list info)
  (Hlimit : limit <= RS_MAX_GET_OBJS_LIMIT)
  (Hpage : listing_answer self path (Some (m ++ SEP)%string) limit
           = inr page) :
  (forall first : info,
      marker_matches (Some (m ++ SEP)%string) first = false
      /\ marker_matches (Some (SEP ++ m)%string) first = false)
  /\ get_objects self path (Some (m ++ SEP)%string) limit log
     = ((log ++ [listing_call path (Some (m ++ SEP)%string) limit])%list,
        map_result (from_info self) (PyStr.slice_to limit (_collapse page))).
Proof.
  assert (Hno : forall first : info,
             marker_matches (Some (m ++ SEP)%string) first = false
             /\ marker_matches (Some (SEP ++ m)%string) first = false).
  { intros first. unfold marker_matches, trimmed_subdir.
    destruct (strip_no_separator (dict_get (i_subdir first) "") m)
      as [Hend Hstart].
    split; apply andb_false_iff; right; apply String.eqb_neq; assumption. }
  split; [exact Hno|].
  rewrite get_objects_accepted by exact Hlimit.
  rewrite Hpage, select_infos_steps.
  destruct page as [|first rest]; [reflexivity|].
  unfold skip_marker. rewrite (proj1 (Hno first)). reflexivity.
Qed.

Lemma marker_with_separator_never_matches_witness :
  exists objs,
    get_objects (container_of_page [photos_implied; docs_file])
      "" (Some "photos/") 2 []
    = ([ListObjectsInfo 3 "/" "" (Some "photos/")], inr objs)
    /\ names_and_types objs = [("photos/", SUBDIR); ("docs", FILE)].
Proof.
  eexists. split.
  - destruct (marker_with_separator_never_matches
                (container_of_page [photos_implied; docs_file])
                "" "photos" 2 [] [photos_implied; docs_file]) as [_ H].
    + unfold RS_MAX_GET_OBJS_LIMIT; lia.
    + reflexivity.
    + etransitivity; [exact H | reflexivity].
  - reflexivity.
Defined.

(** ** The two constructors *)

Lemma choose_type_subdir (ct : string) :
  choose_type ct = SUBDIR <-> ct = "application/directory".
Proof.
  unfold choose_type.
  destruct (String.eqb_spec ct "application/directory") as [->|Hne].
  - tauto.
  - split; [discriminate | contradiction].
Qed.

(** The outcome of [from_file_info], key by key in the order in which the
    code reads them. *)
Lemma from_file_info_returns (c : RackspaceContainer) (x : info)
  (o : RackspaceObject) :
  from_file_info c x = inr o <->
  exists lm dt n b ct,
    i_last_modified x = Some lm
    /\ Strptime.strptime (timestamp_text lm) "%Y-%m-%dT%H:%M:%S" = inr dt
    /\ i_name x = Some n
    /\ i_bytes x = Some b
    /\ i_content_type x = Some ct
    /\ o = mk_object c n (Some b) (Some ct) (Some dt) (choose_type ct).
Proof.
  unfold from_file_info, timestamp_text. split.
  - destruct (i_last_modified x) as [lm|]; [|discriminate]. simpl.
    destruct (Strptime.strptime _ _) as [e|dt] eqn:E; [discriminate|]. simpl.
    destruct (i_name x) as [n|]; [|discriminate]. simpl.
    destruct (i_bytes x) as [b|]; [|discriminate]. simpl.
    destruct (i_content_type x) as [ct|]; [|discriminate]. simpl.
    intros H. injection H as <-.
    exists lm, dt, n, b, ct. repeat split; try reflexivity. exact E.
  - intros (lm & dt & n & b & ct & Hlm & Hdt & Hn & Hb & Hct & ->).
    rewrite Hlm. simpl. rewrite Hdt. simpl. rewrite Hn, Hb, Hct. reflexivity.
Qed.

(** X10: whenever an object is built from a listing entry, its type is
    SUBDIR exactly when the entry has a ['subdir'] key or its content type
    is application/directory (compared as it is, case included), and FILE
    otherwise. *)
Theorem object_type_of_entry
  (c : RackspaceContainer) (x : info) (o : RackspaceObject)
  (Hbuilt : from_info c x = inr o) :
  (obj_type o = SUBDIR <->
   is_pseudo x = true \/ i_content_type x = Some "application/directory")
  /\ (obj_type o = FILE <->
      is_pseudo x = false /\ i_content_type x <> Some "application/directory").
Proof.
  unfold from_info, is_pseudo in *.
  destruct (i_subdir x) as [sd|] eqn:Hsd.
  - unfold from_subdir in Hbuilt. rewrite Hsd in Hbuilt. simpl in Hbuilt.
    injection Hbuilt as <-. simpl. split; split.
    + intros _. left. reflexivity.
    + reflexivity.
    + discriminate.
    + intros [H _]. discriminate.
  - apply from_file_info_returns in Hbuilt.
    destruct Hbuilt as (lm & dt & n & b & ct & _ & _ & _ & _ & Hct & ->).
    simpl. rewrite Hct. split; split.
    + intros H. right. f_equal. apply choose_type_subdir. exact H.
    + intros [H|H]; [discriminate|]. injection H as ->. reflexivity.
    + intros H. split; [reflexivity|]. intros H'. injection H' as ->.
      discriminate.
    + intros [_ H]. destruct (choose_type ct) eqn:E; [reflexivity|].
      exfalso. apply H. f_equal. apply choose_type_subdir. exact E.
Qed.

Lemma object_type_of_entry_witness :
  from_info (container_of_page []) docs_file
  = inr (mk_object (container_of_page []) "docs" (Some 12) (Some "text/plain")
           (Some new_year_2020) FILE)
  /\ is_pseudo docs_file = false
  /\ i_content_type docs_file <> Some "application/directory".
Proof.
  split; [reflexivity|].
  apply (object_type_of_entry (container_of_page []) docs_file
           (mk_object (container_of_page []) "docs" (Some 12)
              (Some "text/plain") (Some new_year_2020) FILE) eq_refl).
  reflexivity.
Defined.

(** An entry with a ['subdir'] key is always converted, whatever its
    other keys hold or lack: the object is a SUBDIR without size, content
    type and date, and its name is the ['subdir'] value as the vendor gave
    it, separators included, not the trimmed name and not the ['name']
    value. *)
Theorem pseudo_entry_always_converts
  (c : RackspaceContainer) (x : info) (sd : string)
  (Hsub : i_subdir x = Some sd) :
  from_info c x = inr (mk_object c sd None None None SUBDIR).
Proof.
  unfold from_info, from_subdir. rewrite Hsub. reflexivity.
Qed.

Lemma pseudo_entry_always_converts_witness :
  i_subdir mixed_entry = Some "a/"
  /\ i_name mixed_entry = Some "a"
  /\ from_info (container_of_page []) mixed_entry
     = inr (mk_object (container_of_page []) "a/" None None None SUBDIR).
Proof.
  split; [reflexivity|]. split; [reflexivity|].
  apply (pseudo_entry_always_converts (container_of_page []) mixed_entry "a/").
  reflexivity.
Defined.

(** X11: an entry without a ['subdir'] key is converted exactly when it has
    its four keys and the text of ['last_modified'] before the first dot
    parses; the object then carries the name, the size, the content type
    and the parsed date of the entry. A missing key or a bad date raises,
    and no partial object is built. *)
Theorem file_entry_converts_iff
  (c : RackspaceContainer) (x : info)
  (Hfile : i_subdir x = None) :
  (forall o : RackspaceObject,
      from_info c x = inr o <->
      exists lm dt n b ct,
        i_last_modified x = Some lm
        /\ Strptime.strptime (timestamp_text lm) "%Y-%m-%dT%H:%M:%S" = inr dt
        /\ i_name x = Some n
        /\ i_bytes x = Some b
        /\ i_content_type x = Some ct
        /\ o = mk_object c n (Some b) (Some ct) (Some dt) (choose_type ct))
  /\ (i_last_modified x = None ->
      from_info c x = raise_ (Builtin KeyError) "last_modified")
  /\ (forall e : exn, from_info c x = inl e -> is_builtin e).
Proof.
  split; [|split].
  - intros o. unfold from_info. rewrite Hfile. apply from_file_info_returns.
  - intros H. unfold from_info, from_file_info. rewrite Hfile, H. reflexivity.
  - intros e. apply from_info_builtin.
Qed.

Lemma file_entry_converts_iff_witness :
  i_subdir broken_dir = None
  /\ from_info (container_of_page []) broken_dir
     = raise_ (Builtin KeyError) "last_modified"
  /\ (forall o, from_info (container_of_page []) broken_dir <> inr o).
Proof.
  destruct (file_entry_converts_iff (container_of_page []) broken_dir eq_refl)
    as [Hiff [Hkey _]].
  split; [reflexivity|]. split.
  - apply Hkey. reflexivity.
  - intros o H. apply Hiff in H.
    destruct H as (lm & _ & _ & _ & _ & H & _). discriminate.
Defined.

(** X12: the two construction paths agree: a listing entry and a fetched
    native object with the same name, size and content type, whose dates
    parse to the same instant, give the same object. *)
Theorem construction_paths_agree
  (c : RackspaceContainer) (n : string) (b : Z) (ct lm lm' : string)
  (rd : result string) (dt : Strptime.datetime)
  (Hlisting : Strptime.strptime (timestamp_text lm) "%Y-%m-%dT%H:%M:%S"
              = inr dt)
  (Hfetched : Strptime.strptime lm' "%a, %d %b %Y %H:%M:%S GMT" = inr dt) :
  from_info c (file_info n b ct lm)
  = from_obj c (mk_native_object n b ct lm' rd).
Proof.
  unfold from_info, from_file_info, from_obj, file_info, timestamp_text in *.
  cbn [i_subdir i_last_modified i_name i_bytes i_content_type dict_item rbind
       no_last_modified no_name no_size no_content_type].
  rewrite Hlisting, Hfetched. reflexivity.
Qed.

Lemma construction_paths_agree_witness :
  from_info (container_of_page []) docs_file
  = from_obj (container_of_page []) docs_native
  /\ from_obj (container_of_page []) docs_native
     = inr (mk_object (container_of_page []) "docs" (Some 12)
              (Some "text/plain") (Some new_year_2020) FILE).
Proof.
  split; [|vm_compute; reflexivity].
  apply (construction_paths_agree (container_of_page []) "docs" 12
           "text/plain" "2020-01-01T00:00:00"
           "Wed, 01 Jan 2020 00:00:00 GMT" (inr "contents") new_year_2020);
    vm_compute; reflexivity.
Defined.

(** ** Fetching one object *)

Lemma from_obj_builtin (c : RackspaceContainer) (obj : NativeObject) (e : exn) :
  from_obj c obj = inl e -> is_builtin e.
Proof.
  unfold from_obj.
  destruct (Strptime.strptime _ _) as [e'|dt] eqn:E; simpl; [|discriminate].
  intros H. injection H as <-. eapply strptime_builtin. exact E.
Qed.

(** X13: [get_object] issues exactly one vendor call, for the path as it
    was given (no separator is added or removed), and its outcome is the
    translated vendor exception when the vendor raises, and otherwise the
    outcome of [from_obj] on the fetched object: a date that does not parse
    raises [ValueError] as it is, not a [CloudException]. *)
Theorem get_object_outcome
  (self : RackspaceContainer) (path : string) (log : list vendor_call) :
  get_object self path log
  = ((log ++ [GetObject path])%list,
     match get_object_native (native_container self) path with
     | inl e => inl (translate RackspaceExceptionWrapper e)
     | inr obj => from_obj self obj
     end)
  /\ (forall obj e,
        get_object_native (native_container self) path = inr obj ->
        from_obj self obj = inl e ->
        get_object self path log = ((log ++ [GetObject path])%list, inl e)
        /\ exn_cls e = Builtin ValueError).
Proof.
  assert (H : get_object self path log
              = ((log ++ [GetObject path])%list,
                 match get_object_native (native_container self) path with
                 | inl e => inl (translate RackspaceExceptionWrapper e)
                 | inr obj => from_obj self obj
                 end)).
  { unfold get_object, wrap_rs_errors, wrap, bind, call, lift.
    destruct (get_object_native _ _) as [e|obj]; [reflexivity|].
    destruct (from_obj self obj) as [e|o] eqn:E; [|reflexivity].
    rewrite (translate_builtin _ _ (from_obj_builtin _ _ _ E)). reflexivity. }
  split; [exact H|].
  intros obj e Hobj He. rewrite H, Hobj. split; [rewrite He; reflexivity|].
  unfold from_obj in He.
  destruct (Strptime.strptime _ _) as [e'|dt] eqn:E; simpl in He;
    [|discriminate].
  injection He as <-. unfold Strptime.strptime in E.
  destruct (Strptime.compile_format _) as [ps|];
    [|injection E as <-; reflexivity].
  destruct (Strptime.match_pieces ps _) as [|[gs rest] tl];
    [injection E as <-; reflexivity|].
  destruct (PyStr.truthy rest); [injection E as <-; reflexivity|].
  destruct (Strptime.valid_datetime _); [discriminate|].
  injection E as <-. reflexivity.
Qed.

Lemma get_object_outcome_witness :
  get_object (fetch_container docs_native) "docs" []
  = ([GetObject "docs"],
     inr (mk_object (fetch_container docs_native) "docs" (Some 12)
            (Some "text/plain") (Some new_year_2020) FILE))
  /\ get_object (fetch_container docs_native_cet) "docs" []
     = ([GetObject "docs"],
        raise_ (Builtin ValueError) "time data does not match format").
Proof.
  split.
  - rewrite (proj1 (get_object_outcome (fetch_container docs_native) "docs" [])).
    vm_compute. reflexivity.
  - apply (proj2 (get_object_outcome
                    (fetch_container docs_native_cet) "docs" [])
             docs_native_cet).
    + reflexivity.
    + vm_compute. reflexivity.
Defined.

(** ** Connecting *)

(** X14: [_get_connection] calls the vendor's [get_connection] once, with
    the account as [username] and the secret key as [api_key]; the keyword
    [servicenet] is passed, with value [True], exactly when the connection
    was created with [rs_servicenet], and is never passed as [False]. *)
Theorem get_connection_keywords
  (get_connection : kwargs -> M NativeConnection)
  (self : RackspaceConnection) :
  exists kw : kwargs,
    _get_connection get_connection self = wrap_rs_errors (get_connection kw)
    /\ kw_lookup "username" kw = Some (KwStr (account self))
    /\ kw_lookup "api_key" kw = Some (KwStr (secret_key self))
    /\ kw_lookup "servicenet" kw
       = (if rs_servicenet self then Some (KwBool true) else None)
    /\ (forall k, kw_lookup k kw <> Some (KwBool false)).
Proof.
  unfold _get_connection. destruct (rs_servicenet self).
  - exists [ ("username", KwStr (account self));
             ("api_key", KwStr (secret_key self));
             ("servicenet", KwBool true) ].
    repeat (split; [reflexivity|]).
    intros k. cbn [kw_lookup].
    destruct (String.eqb "username" k); [discriminate|].
    destruct (String.eqb "api_key" k); [discriminate|].
    destruct (String.eqb "servicenet" k); discriminate.
  - exists [ ("username", KwStr (account self));
             ("api_key", KwStr (secret_key self)) ].
    repeat (split; [reflexivity|]).
    intros k. cbn [kw_lookup].
    destruct (String.eqb "username" k); [discriminate|].
    destruct (String.eqb "api_key" k); discriminate.
Qed.

(** ** Why one entry more is requested *)

Lemma slice_to_all {A : Type} (n : Z) (l : list A) :
  Z.of_nat (List.length l) <= n -> PyStr.slice_to n l = l.
Proof.
  intros H. unfold PyStr.slice_to.
  destruct (Z.ltb_spec n 0) as [Hlt|_]; [lia|].
  apply firstn_all2. lia.
Qed.

(** X15: the extra entry of the request pays for the marker entry: when the
    first entry of the page matches the marker and the vendor returned no
    more than the [limit + 1] entries it was asked for, the truncation
    removes nothing, so every entry that survives collapsing is returned. *)
Theorem marker_entry_costs_nothing
  (marker : option string) (limit : Z) (first : info) (rest : list info)
  (Hmatch : marker_matches marker first = true)
  (Hsize : Z.of_nat (List.length (first :: rest)) <= limit + 1) :
  select_infos marker limit (first :: rest) = _collapse rest.
Proof.
  unfold select_infos. rewrite Hmatch. apply slice_to_all.
  pose proof (_collapse_from_length None rest) as H.
  unfold _collapse. simpl List.length in Hsize. lia.
Qed.

Lemma marker_entry_costs_nothing_witness :
  marker_matches (Some "photos") photos_implied = true
  /\ select_infos (Some "photos") 2
       [photos_implied; docs_file; subdir_info "zoo/"]
     = [docs_file; subdir_info "zoo/"].
Proof.
  split; [reflexivity|].
  rewrite (marker_entry_costs_nothing (Some "photos") 2 photos_implied
             [docs_file; subdir_info "zoo/"]).
  - reflexivity.
  - reflexivity.
  - simpl. lia.
Defined.
